(** * Spiritual Guru Chat API: reply synthesis and store adapter

    A shallow embedding of [src/main.py]: [generate_guru_reply], [list_gurus]
    and [ask_guru], with the properties of the specification proved about
    them. *)

From Stdlib Require Import NArith String Ascii.
From stdpp Require Import gmap list fin_maps.

Local Open Scope N_scope.
Set Warnings "-register-all".

(** ** Python strings

    A Python [str] is a sequence of Unicode code points. *)

Abbreviation pystr := (list N).

(** An ASCII literal of the source, as a [str]. *)
Definition str (s : string) : pystr :=
  map N_of_ascii (list_ascii_of_string s).

(** [str.isspace] on one code point: the code points CPython classes as
    whitespace, which are the ones [str.strip()] removes. *)
Definition isspace (c : N) : bool :=
  (9 <=? c) && (c <=? 13)
  || (28 <=? c) && (c <=? 32)
  || (c =? 133) || (c =? 160) || (c =? 5760)
  || (8192 <=? c) && (c <=? 8202)
  || (c =? 8232) || (c =? 8233) || (c =? 8239) || (c =? 8287)
  || (c =? 12288).

Fixpoint lstrip (s : pystr) : pystr :=
  match s with
  | [] => []
  | c :: s' => if isspace c then lstrip s' else s
  end.

Definition rstrip (s : pystr) : pystr := rev (lstrip (rev s)).

(** [s.strip()] *)
Definition strip (s : pystr) : pystr := rstrip (lstrip s).

(** Lower-casing of one code point.  [A]..[Z] go to [a]..[z]; U+0130 and
    U+212A (the Kelvin sign) are the two code points outside ASCII that
    Python lower-cases into ASCII letters.  Every other code point is kept:
    outside ASCII, [str.lower] only ever yields code points outside ASCII,
    and the program compares lower-cased text with ASCII literals only, so
    their exact images cannot be observed. *)
Definition lower_cp (c : N) : pystr :=
  if (65 <=? c) && (c <=? 90) then [c + 32]
  else if c =? 304 then [105; 775]
  else if c =? 8490 then [107]
  else [c].

(** [s.lower()] *)
Definition lower (s : pystr) : pystr := flat_map lower_cp s.

Fixpoint startswith (s w : pystr) {struct w} : bool :=
  match w, s with
  | [], _ => true
  | _ :: _, [] => false
  | x :: w', c :: s' => (x =? c) && startswith s' w'
  end.

(** [w in s] for two strings: [w] occurs in [s] as a contiguous run. *)
Fixpoint contains (w s : pystr) : bool :=
  startswith s w ||
  match s with
  | [] => false
  | _ :: s' => contains w s'
  end.

(** [any(w in s for w in ws)] *)
Definition any_in (ws : list pystr) (s : pystr) : bool :=
  existsb (fun w => contains w s) ws.

(** [dict.get(key, default)] on a literal dictionary with string values. *)
Definition dict_get (d : gmap pystr pystr) (k : pystr) (dflt : pystr) : pystr :=
  default dflt (d !! k).

(** ** Reply synthesis: [generate_guru_reply] *)

Definition preface : gmap pystr pystr :=
  list_to_map
    [ (str "zen", str "Zen Reflection:");
      (str "yogi", str "Yogic Guidance:");
      (str "astrologer", str "Astrological Insight:");
      (str "monk", str "Monastic Wisdom:");
      (str "sufi", str "Sufi Whisper:") ].

(** The em dash of the zen sentence is U+2014. *)
Definition tailoring : gmap pystr pystr :=
  list_to_map
    [ (str "zen",
       str " Embrace simplicity" ++ [8212]
       ++ str "wash the bowl, one mindful action at a time.");
      (str "yogi",
       str " Align breath and intention; the posture of your day shapes the posture of your mind.");
      (str "astrologer",
       str " Trust timing; not every seed sprouts in the same season.");
      (str "monk",
       str " Choose quiet courage. Consistency is a humble miracle.");
      (str "sufi",
       str " Let love polish the heart; dance gently with what is.") ].

Definition stress_words : list pystr :=
  [str "stress"; str "anxious"; str "anxiety"; str "overwhelmed"].
Definition purpose_words : list pystr :=
  [str "purpose"; str "meaning"; str "direction"].
Definition relationship_words : list pystr :=
  [str "love"; str "relationship"; str "breakup"; str "heart"].
Definition career_words : list pystr :=
  [str "career"; str "job"; str "work"].

Definition silence_core : pystr :=
  str "Silence can be a teacher. Breathe, observe, and allow the next question to arise naturally.".
Definition stress_core : pystr :=
  str "Place a hand on your heart. Inhale for 4, hold for 4, exhale for 6."
  ++ str " Notice one thing you can see, hear, and feel. Your mind will follow your breath.".
Definition purpose_core : pystr :=
  str "Purpose unfolds in small, honest steps. Name one value you refuse to abandon;"
  ++ str " take one action today that honors it.".
Definition relationship_core : pystr :=
  str "Love matures through presence and boundaries. Speak your needs with kindness;"
  ++ str " listen without preparing your defense.".
Definition career_core : pystr :=
  str "Treat your work as a dojo: show up, practice, reflect. Choose the smallest improvement"
  ++ str " you can repeat for 7 days; let results compound.".
Definition default_core : pystr :=
  str "Return to the body: relax the jaw, soften the shoulders. Ask: What is truly needed now?"
  ++ str " Let the simple, compassionate response lead your next move.".

(** The value the [if]/[elif] chain assigns to [core], from the stripped
    message [msg]. *)
Definition core (msg : pystr) : pystr :=
  match msg with
  | [] => silence_core
  | _ :: _ =>
      if any_in stress_words (lower msg) then stress_core
      else if any_in purpose_words (lower msg) then purpose_core
      else if any_in relationship_words (lower msg) then relationship_core
      else if any_in career_words (lower msg) then career_core
      else default_core
  end.

Definition generate_guru_reply (archetype user_message : pystr) : pystr :=
  let msg := strip user_message in
  let a := lower archetype in
  let opening := dict_get preface a (str "Guidance:") in
  opening ++ str " " ++ core msg ++ dict_get tailoring a (str "").

(** ** Documents and the store interface *)

(** The values the program puts into, and reads from, documents. *)
Inductive value : Type :=
  | VNone
  | VStr (s : pystr).

#[global] Instance value_eq_dec : EqDecision value.
Proof. solve_decision. Defined.

(** A document is a Python [dict] with string keys. *)
Abbreviation doc := (gmap pystr value).

(** [str(v)] *)
Definition py_str (v : value) : pystr :=
  match v with
  | VNone => str "None"
  | VStr s => s
  end.

(** Query documents: [{k: v}] and [{"$or": [...]}]. *)
Inductive filter_dict : Type :=
  | FieldEq (k : pystr) (v : value)
  | FOr (alternatives : list filter_dict).

(** The outcome of a store call: a value, or an exception. *)
Inductive result (A : Type) : Type :=
  | Ok (a : A)
  | Raise.
Arguments Ok {A} a.
Arguments Raise {A}.

(** Programs that call the two functions imported from [database]. *)
Inductive io (A : Type) : Type :=
  | Ret (a : A)
  | GetDocuments (collection_name : pystr) (f : option filter_dict)
      (k : result (list doc) -> io A)
  | CreateDocument (collection_name : pystr) (data : doc)
      (k : result pystr -> io A).
Arguments Ret {A} a.
Arguments GetDocuments {A} collection_name f k.
Arguments CreateDocument {A} collection_name data k.

Fixpoint io_bind {A B} (f : A -> io B) (p : io A) : io B :=
  match p with
  | Ret a => f a
  | GetDocuments c q k => GetDocuments c q (fun r => io_bind f (k r))
  | CreateDocument c d k => CreateDocument c d (fun r => io_bind f (k r))
  end.

#[global] Instance io_mret : MRet io := @Ret.
#[global] Instance io_mbind : MBind io := @io_bind.

Definition get_documents (collection_name : pystr) (f : option filter_dict)
  : io (result (list doc)) :=
  GetDocuments collection_name f Ret.

Definition create_document (collection_name : pystr) (data : doc)
  : io (result pystr) :=
  CreateDocument collection_name data Ret.

(** One store call together with its outcome. *)
Inductive event : Type :=
  | EGet (collection_name : pystr) (f : option filter_dict)
      (r : result (list doc))
  | ECreate (collection_name : pystr) (data : doc) (r : result pystr).

(** Any implementation of the store, over its own state. *)
Record backend (S : Type) : Type := Backend {
  on_get : pystr -> option filter_dict -> S -> result (list doc) * S;
  on_create : pystr -> doc -> S -> result pystr * S
}.
Arguments Backend {S} on_get on_create.
Arguments on_get {S} b c f s.
Arguments on_create {S} b c d s.

(** Running a program against a store: the value it returns, the final
    store and the calls it made, in order. *)
Fixpoint run {S A} (b : backend S) (p : io A) (s : S) : A * S * list event :=
  match p with
  | Ret a => (a, s, [])
  | GetDocuments c q k =>
      let '(r, s1) := on_get b c q s in
      let '(a, s2, log) := run b (k r) s1 in
      (a, s2, EGet c q r :: log)
  | CreateDocument c d k =>
      let '(r, s1) := on_create b c d s in
      let '(a, s2, log) := run b (k r) s1 in
      (a, s2, ECreate c d r :: log)
  end.

Definition is_write (e : event) : bool :=
  match e with
  | ECreate _ _ _ => true
  | EGet _ _ _ => false
  end.

Definition failed_write (e : event) : bool :=
  match e with
  | ECreate _ _ Raise => true
  | _ => false
  end.

Definition failed_query (e : event) : bool :=
  match e with
  | EGet _ _ Raise => true
  | _ => false
  end.

(** ** The request and response models *)

Module AskRequest.
Record t : Type := Build {
  conversation_id : option pystr;
  guru_id : pystr;
  user_message : pystr;
  user_name : option pystr
}.
End AskRequest.

Module AskResponse.
Record t : Type := Build {
  conversation_id : pystr;
  reply : pystr
}.
End AskResponse.

(** How a call of [ask_guru] ends: with a response, with the
    [HTTPException] it raises, or with the [AttributeError] of
    [archetype.lower()] when the stored archetype is not a [str]. *)
Inductive outcome : Type :=
  | Returns (response : AskResponse.t)
  | HTTPException (status_code : N) (detail : pystr)
  | AttributeError.

(** An [Optional[str]] as a document value. *)
Definition opt_value (o : option pystr) : value :=
  match o with
  | None => VNone
  | Some s => VStr s
  end.

(** Truth value of an [Optional[str]]: [None] and the empty string are false. *)
Definition truthy (o : option pystr) : bool :=
  match o with
  | None | Some [] => false
  | Some (_ :: _) => true
  end.

(** ** [list_gurus] *)

Definition persona (name archetype avatar description : pystr) : doc :=
  list_to_map
    [ (str "name", VStr name);
      (str "archetype", VStr archetype);
      (str "avatar", VStr avatar);
      (str "description", VStr description) ].

(** The avatars are emoji, given by their code points. *)
Definition defaults : list doc :=
  [ persona (str "Zen Teacher") (str "zen") [129719]
      (str "Quiet clarity and koan-like reflections.");
    persona (str "Yogi Guide") (str "yogi") [129496]
      (str "Breath, alignment, and daily practice.");
    persona (str "Astrologer") (str "astrologer") [10024]
      (str "Patterns of time and temperament.");
    persona (str "Monk Mentor") (str "monk") [128591]
      (str "Discipline, devotion, and gentle routine.");
    persona (str "Sufi Friend") (str "sufi") [128330; 65039]
      (str "Heart-centered presence and poetry.") ].

(** The seeding loop: one write per default, its outcome discarded. *)
Fixpoint seed (gs : list doc) : io unit :=
  match gs with
  | [] => mret tt
  | g :: gs' => _ ← create_document (str "guru") g; seed gs'
  end.

(** One pass of the normalising loop: [_id] leaves, [id] takes its text. *)
Definition normalize (d : doc) : doc :=
  let d2 := delete (str "_id") d in
  match d !! str "_id" with
  | Some v => <[str "id" := VStr (py_str v)]> d2
  | None => d2
  end.

(** Returns the list under the key ["gurus"] of the response. *)
Definition list_gurus : io (list doc) :=
  r ← get_documents (str "guru") None;
  docs ← match r with
         | Raise => mret defaults
         | Ok [] =>
             _ ← seed defaults;
             r' ← get_documents (str "guru") None;
             mret (match r' with
                   | Ok docs => docs
                   | Raise => defaults
                   end)
         | Ok docs => mret docs
         end;
  mret (normalize <$> docs).

(** ** [ask_guru] *)

Definition guru_filter (guru_id : pystr) : filter_dict :=
  FOr [ FieldEq (str "archetype") (VStr guru_id);
        FieldEq (str "_id") (VStr guru_id) ].

Definition named (name archetype : pystr) : doc :=
  list_to_map [ (str "name", VStr name); (str "archetype", VStr archetype) ].

(** The literal list the fallback loop runs over. *)
Definition builtin_gurus : list doc :=
  [ named (str "Zen Teacher") (str "zen");
    named (str "Yogi Guide") (str "yogi");
    named (str "Astrologer") (str "astrologer");
    named (str "Monk Mentor") (str "monk");
    named (str "Sufi Friend") (str "sufi") ].

(** The value of [guru] once the lookup is over, from the outcome [r] of the
    store query: a failed query leaves [guru_docs] empty. *)
Definition lookup_guru (guru_id : pystr) (r : result (list doc)) : option doc :=
  let guru_docs := match r with Ok docs => docs | Raise => [] end in
  match guru_docs with
  | [] =>
      List.find
        (fun g => bool_decide (g !! str "archetype" = Some (VStr guru_id)))
        builtin_gurus
  | g :: _ => Some g
  end.

Definition conversation_doc (payload : AskRequest.t) : doc :=
  list_to_map
    [ (str "guru_id", VStr (AskRequest.guru_id payload));
      (str "user_name", opt_value (AskRequest.user_name payload));
      (str "title", VNone) ].

Definition message_doc (conv_id : option pystr) (role content guru_id : pystr)
  : doc :=
  list_to_map
    [ (str "conversation_id", opt_value conv_id);
      (str "role", VStr role);
      (str "content", VStr content);
      (str "guru_id", VStr guru_id) ].

Definition respond (conv_id : option pystr) (reply : pystr) : AskResponse.t :=
  AskResponse.Build (py_str (opt_value conv_id)) reply.

(** The [except] branch, entered with the [conv_id] of the moment. *)
Definition on_exception (conv_id : option pystr) (reply : pystr)
  : AskResponse.t :=
  respond (if truthy conv_id then conv_id else Some (str "temp-session")) reply.

(** The two message writes of the [try] block. *)
Definition store_messages (payload : AskRequest.t) (conv_id : option pystr)
    (reply : pystr) : io AskResponse.t :=
  let guru_id := AskRequest.guru_id payload in
  r1 ← create_document (str "message")
         (message_doc conv_id (str "user") (AskRequest.user_message payload)
            guru_id);
  match r1 with
  | Raise => mret (on_exception conv_id reply)
  | Ok _ =>
      r2 ← create_document (str "message")
             (message_doc conv_id (str "guru") reply guru_id);
      match r2 with
      | Raise => mret (on_exception conv_id reply)
      | Ok _ => mret (respond conv_id reply)
      end
  end.

(** The [try]/[except] statement as a whole. *)
Definition persist (payload : AskRequest.t) (reply : pystr)
  : io AskResponse.t :=
  let conv_id := AskRequest.conversation_id payload in
  if truthy conv_id then store_messages payload conv_id reply
  else
    r ← create_document (str "conversation") (conversation_doc payload);
    match r with
    | Raise => mret (on_exception conv_id reply)
    | Ok new_id => store_messages payload (Some new_id) reply
    end.

(** [not guru] holds of [None] and of the empty dictionary. *)
Definition ask_guru (payload : AskRequest.t) : io outcome :=
  let guru_id := AskRequest.guru_id payload in
  r ← get_documents (str "guru") (Some (guru_filter guru_id));
  match lookup_guru guru_id r with
  | None => mret (HTTPException 404 (str "Guru not found"))
  | Some guru =>
      if bool_decide (guru = ∅)
      then mret (HTTPException 404 (str "Guru not found"))
      else
        match default (VStr (str "zen")) (guru !! str "archetype") with
        | VStr archetype =>
            let reply :=
              generate_guru_reply archetype (AskRequest.user_message payload) in
            response ← persist payload reply;
            mret (Returns response)
        | VNone => mret AttributeError
        end
  end.

(** ** A store that works *)

Fixpoint matches (f : filter_dict) (d : doc) : bool :=
  match f with
  | FieldEq k v => bool_decide (d !! k = Some v)
  | FOr fs => existsb (fun f' => matches f' d) fs
  end.

Record store : Type := Store {
  collections : gmap pystr (list doc);
  next_id : nat
}.

Definition documents (s : store) (collection_name : pystr) : list doc :=
  default [] (collections s !! collection_name).

Section DocumentStore.

(** The identifier the store gives to its [n]-th document. *)
Variable genid : nat -> pystr.

(** Modelled from the spec: the module [database] is not among the sources;
    this is the Document Store of the specification,
    [query(collection, filter?)] returning the documents of the collection
    that satisfy the filter, in the order they were written. *)
Definition store_query (collection_name : pystr) (f : option filter_dict)
    (s : store) : result (list doc) * store :=
  let docs := documents s collection_name in
  (Ok (match f with
       | None => docs
       | Some q => List.filter (matches q) docs
       end), s).

(** Modelled from the spec: [insert(collection, document)] of the same
    Document Store; the written document carries the generated identifier
    under [_id], is visible to the queries that follow, and the identifier
    is returned. *)
Definition store_insert (collection_name : pystr) (data : doc) (s : store)
  : result pystr * store :=
  let new_id := genid (next_id s) in
  (Ok new_id,
   Store
     (<[collection_name :=
          documents s collection_name ++ [<[str "_id" := VStr new_id]> data]]>
        (collections s))
     (S (next_id s))).

Definition working : backend store := Backend store_query store_insert.

(** Modelled from the spec: the same Document Store when it refuses some
    documents: [insert] raises on them and leaves the store as it is. *)
Definition store_insert_unless (refused : doc -> bool)
    (collection_name : pystr) (data : doc) (s : store)
  : result pystr * store :=
  if refused data then (Raise, s) else store_insert collection_name data s.

Definition selective (refused : doc -> bool) : backend store :=
  Backend store_query (store_insert_unless refused).

(** The documents a run of writes leaves in a collection, the first of
    them being the [n]-th document of the store. *)
Fixpoint stored (n : nat) (gs : list doc) : list doc :=
  match gs with
  | [] => []
  | g :: gs' => <[str "_id" := VStr (genid n)]> g :: stored (S n) gs'
  end.

(** The same documents as [list_gurus] returns them. *)
Fixpoint listed (n : nat) (gs : list doc) : list doc :=
  match gs with
  | [] => []
  | g :: gs' => <[str "id" := VStr (genid n)]> g :: listed (S n) gs'
  end.

End DocumentStore.

(** A store that cannot be reached: every call raises. *)
Definition unavailable : backend unit :=
  Backend (fun _ _ s => (Raise, s)) (fun _ _ s => (Raise, s)).

(** ** Vocabulary of the properties *)

Abbreviation blank := (Forall (fun c => isspace c = true)).
Abbreviation solid := (Forall (fun c => isspace c = false)).

Definition known_archetypes : list pystr :=
  [str "zen"; str "yogi"; str "astrologer"; str "monk"; str "sufi"].

(** A store call without its outcome. *)
Inductive call : Type :=
  | CGet (collection_name : pystr) (f : option filter_dict)
  | CCreate (collection_name : pystr) (data : doc).

Definition call_of (e : event) : call :=
  match e with
  | EGet c f _ => CGet c f
  | ECreate c d _ => CCreate c d
  end.

Definition answer {S A} (x : A * S * list event) : A := x.1.1.
Definition final {S A} (x : A * S * list event) : S := x.1.2.
Definition calls {S A} (x : A * S * list event) : list event := x.2.

Ltac io_unfold := unfold mbind, io_mbind, mret, io_mret in *.

Ltac cp_cases :=
  repeat match goal with
    | |- context [N.leb ?a ?b] => destruct (N.leb_spec a b)
    | |- context [N.eqb ?a ?b] => destruct (N.eqb_spec a b)
    end.

Definition archetype_of (d : doc) : option value := d !! str "archetype".

(** An identifier generator to run the working store with. *)
Definition tally (n : nat) : pystr := str "id-" ++ replicate n 49.

Definition creates_conversation (e : event) : bool :=
  match e with
  | ECreate c _ _ => bool_decide (c = str "conversation")
  | EGet _ _ _ => false
  end.

(** The identifier the conversation write returned, if that write is in the
    log and did not raise. *)
Definition created (log : list event) : option pystr :=
  match List.find creates_conversation log with
  | Some (ECreate _ _ (Ok new_id)) => Some new_id
  | _ => None
  end.

(** The value of [conv_id] after the calls of [log]: the identifier of the
    request when it has one, the created one otherwise. *)
Definition current_id (payload : AskRequest.t) (log : list event)
  : option pystr :=
  if truthy (AskRequest.conversation_id payload)
  then AskRequest.conversation_id payload
  else created log.

Definition message_write (conv_id : option pystr) (e : event) : Prop :=
  exists d r, e = ECreate (str "message") d r /\
              d !! str "conversation_id" = Some (opt_value conv_id).

Definition not_found : outcome := HTTPException 404 (str "Guru not found").

Definition zen_request : AskRequest.t :=
  AskRequest.Build None (str "zen") (str "I'm stressed about work") None.

Definition follow_up : AskRequest.t :=
  AskRequest.Build (Some (str "c-1")) (str "zen") (str "and my job?") None.

Definition stranger : AskRequest.t :=
  AskRequest.Build None (str "unknown-persona-xyz") (str "hello") None.

(** The six texts [core] can take. *)
Definition cores : list pystr :=
  [silence_core; stress_core; purpose_core; relationship_core; career_core;
   default_core].

(** The opening label and the tailoring suffix that go together: the
    generic pair, and the pair of each archetype of the tables. *)
Definition styles : list (pystr * pystr) :=
  (str "Guidance:", str "")
  :: ((fun k => (dict_get preface k (str "Guidance:"),
                 dict_get tailoring k (str ""))) <$> known_archetypes).

(** The calls of one exchange that goes all the way, for the conversation
    identifier [conv_id] the messages are written under. *)
Definition plan (payload : AskRequest.t) (conv_id : option pystr)
    (reply : pystr) : list call :=
  let guru_id := AskRequest.guru_id payload in
  CGet (str "guru") (Some (guru_filter guru_id))
  :: (if truthy (AskRequest.conversation_id payload) then []
      else [CCreate (str "conversation") (conversation_doc payload)])
  ++ [ CCreate (str "message")
         (message_doc conv_id (str "user") (AskRequest.user_message payload)
            guru_id);
       CCreate (str "message") (message_doc conv_id (str "guru") reply guru_id) ].

(** The three ways the two message writes can go, under the conversation
    identifier [conv_id]: the log of the writes and the response. *)
Definition message_writes (payload : AskRequest.t) (conv_id : option pystr)
    (reply : pystr) (log : list event) (response : AskResponse.t) : Prop :=
  let guru_id := AskRequest.guru_id payload in
  let user :=
    message_doc conv_id (str "user") (AskRequest.user_message payload) guru_id in
  let guru := message_doc conv_id (str "guru") reply guru_id in
  (log = [ECreate (str "message") user Raise] /\
   response = on_exception conv_id reply) \/
  (exists i1,
     log = [ECreate (str "message") user (Ok i1);
            ECreate (str "message") guru Raise] /\
     response = on_exception conv_id reply) \/
  (exists i1 i2,
     log = [ECreate (str "message") user (Ok i1);
            ECreate (str "message") guru (Ok i2)] /\
     response = respond conv_id reply).

(** The ways the [try] statement can go. *)
Definition exchange_writes (payload : AskRequest.t) (reply : pystr)
    (log : list event) (response : AskResponse.t) : Prop :=
  let supplied := AskRequest.conversation_id payload in
  let conversation := conversation_doc payload in
  if truthy supplied then message_writes payload supplied reply log response
  else
    (log = [ECreate (str "conversation") conversation Raise] /\
     response = respond (Some (str "temp-session")) reply) \/
    (exists new_id log',
       log = ECreate (str "conversation") conversation (Ok new_id) :: log' /\
       message_writes payload (Some new_id) reply log' response).

(** A store whose queries return [docs] and whose writes raise. *)
Definition scripted (docs : list doc) : backend unit :=
  Backend (fun _ _ s => (Ok docs, s)) (fun _ _ s => (Raise, s)).

(** A stored persona found by its identifier, with a null archetype. *)
Definition null_guru : doc :=
  list_to_map [ (str "_id", VStr (str "zen")); (str "archetype", VNone) ].

(** The yogi persona is the one document a store refuses. *)
Definition refuses_yogi (d : doc) : bool :=
  bool_decide (d !! str "archetype" = Some (VStr (str "yogi"))).

(** A store with three personas: the identifier of the second is the
    archetype of the third. *)
Definition stored_guru (id name archetype : pystr) : doc :=
  list_to_map
    [ (str "_id", VStr id); (str "name", VStr name);
      (str "archetype", VStr archetype) ].

Definition three_gurus : store :=
  Store
    (list_to_map
       [ (str "guru",
          [ stored_guru (str "g-0") (str "Zen Teacher") (str "zen");
            stored_guru (str "monk") (str "Yogi Guide") (str "yogi");
            stored_guru (str "g-2") (str "Monk Mentor") (str "monk") ]) ])
    3.

Definition monk_request : AskRequest.t :=
  AskRequest.Build None (str "monk") (str "hello") None.

(** Two code points that are the same letter: equal, or an ASCII capital
    and its small letter. *)
Definition same_letter (c d : N) : Prop :=
  c = d \/ (65 <= c <= 90 /\ d = c + 32) \/ (65 <= d <= 90 /\ c = d + 32).

#[global] Instance same_letter_dec (c d : N) : Decision (same_letter c d).
Proof. unfold same_letter. apply _. Defined.

(** ** [test_database] *)

(** A step that can raise, with the text [str(e)] of the exception. *)
Inductive attempt (A : Type) : Type :=
  | Done (a : A)
  | Failed (message : pystr).
Arguments Done {A} a.
Arguments Failed {A} message.

(** What the handler uses of the object [db]: its attribute [name], when it
    has one, and what [db.list_collection_names()] does. *)
Record database_handle : Type := Handle {
  name : option pystr;
  list_collection_names : attempt (list pystr)
}.

Module Status.
Record t : Type := Build {
  backend : pystr;
  database : pystr;
  database_url : option pystr;
  database_name : option pystr;
  connection_status : pystr;
  collections : list pystr
}.
End Status.

(** The check mark is U+2705, the cross U+274C and the warning sign U+26A0
    followed by U+FE0F. *)
Definition test_database (imported : attempt (option database_handle))
    (DATABASE_URL : option pystr) : Status.t :=
  let running := [9989] ++ str " Running" in
  match imported with
  | Failed e =>
      Status.Build running ([10060] ++ str " Error: " ++ take 50 e)
        None None (str "Not Connected") []
  | Done None =>
      Status.Build running ([10060] ++ str " Not Available")
        None None (str "Not Connected") []
  | Done (Some db) =>
      let database_url :=
        if truthy DATABASE_URL then [9989] ++ str " Set"
        else [10060] ++ str " Not Set" in
      let database_name :=
        match name db with
        | Some n => n
        | None => [9989] ++ str " Connected"
        end in
      match list_collection_names db with
      | Done names =>
          Status.Build running ([9989] ++ str " Connected & Working")
            (Some database_url) (Some database_name) (str "Connected")
            (take 10 names)
      | Failed e =>
          Status.Build running
            ([9888; 65039] ++ str "  Connected but Error: " ++ take 50 e)
            (Some database_url) (Some database_name) (str "Connected") []
      end
  end.

(** * Properties *)

(** ** Strings *)

Lemma startswith_spec (s w : pystr) :
  startswith s w = true <-> exists q, s = w ++ q.
Proof.
  revert s; induction w as [|x w IH]; intros s; simpl.
  - split; [intros _; by exists s | done].
  - destruct s as [|c s].
    + split; [discriminate | intros [q H]; discriminate].
    + rewrite andb_true_iff, N.eqb_eq, IH. split.
      * intros [-> [q ->]]. eauto.
      * intros [q H]. injection H as -> ->. eauto.
Qed.

Lemma contains_spec (w s : pystr) :
  contains w s = true <-> exists p q, s = p ++ w ++ q.
Proof.
  induction s as [|c s IH]; simpl.
  - rewrite orb_false_r, startswith_spec. split.
    + intros [q H]. by exists [], q.
    + intros (p & q & H). destruct p; simpl in H; [eauto | discriminate].
  - rewrite orb_true_iff, startswith_spec, IH. split.
    + intros [[q H] | (p & q & H)].
      * by exists [], q.
      * exists (c :: p), q. simpl. congruence.
    + intros (p & q & H). destruct p as [|c' p]; simpl in H.
      * left; eauto.
      * right. injection H as -> ->. eauto.
Qed.

Lemma lstrip_split (s : pystr) :
  exists l, s = l ++ lstrip s /\ blank l.
Proof.
  induction s as [|c s (l & Hs & Hl)]; simpl.
  - by exists [].
  - destruct (isspace c) eqn:Hc.
    + exists (c :: l). split; [simpl; congruence | by constructor].
    + by exists [].
Qed.

Lemma strip_split (s : pystr) :
  exists l r, s = l ++ strip s ++ r /\ blank l /\ blank r.
Proof.
  destruct (lstrip_split s) as (l & Hs & Hl).
  destruct (lstrip_split (rev (lstrip s))) as (r & Hr & Hbr).
  exists l, (rev r). split; [|split; [done | by apply Forall_rev]].
  unfold strip, rstrip. rewrite <- rev_app_distr, <- Hr, rev_involutive.
  exact Hs.
Qed.

Lemma lstrip_blank (s : pystr) : blank s -> lstrip s = [].
Proof.
  induction 1 as [|c s Hc _ IH]; simpl; [done | by rewrite Hc].
Qed.

Lemma strip_nil_iff (s : pystr) : strip s = [] <-> blank s.
Proof.
  split.
  - intros H. destruct (strip_split s) as (l & r & Hs & Hl & Hr).
    rewrite H in Hs. rewrite Hs. simpl. by apply Forall_app.
  - intros H. unfold strip, rstrip. by rewrite (lstrip_blank s H).
Qed.

Lemma lower_cp_space (c : N) : isspace c = true -> lower_cp c = [c].
Proof.
  unfold isspace, lower_cp. intros H.
  repeat rewrite ?orb_true_iff, ?andb_true_iff, ?N.leb_le, ?N.eqb_eq in H.
  destruct (N.leb_spec 65 c), (N.leb_spec c 90), (N.eqb_spec c 304),
    (N.eqb_spec c 8490); simpl; try reflexivity; lia.
Qed.

Lemma lower_blank (s : pystr) : blank s -> lower s = s.
Proof.
  induction 1 as [|c s Hc _ IH]; [done|].
  unfold lower in *. simpl. by rewrite (lower_cp_space c Hc), IH.
Qed.

Lemma lower_app (s t : pystr) : lower (s ++ t) = lower s ++ lower t.
Proof. apply flat_map_app. Qed.

(** A word without whitespace that occurs in a string occurs in it between
    its leading and its trailing whitespace. *)
Lemma occurs_inside (w l x r p q : pystr) :
  w <> [] -> solid w -> blank l -> blank r ->
  l ++ x ++ r = p ++ w ++ q ->
  exists p' q', x = p' ++ w ++ q'.
Proof.
  intros Hne Hw Hl. revert p. induction Hl as [|c l Hc _ IH]; intros p Hr H.
  - simpl in H. exists p. revert q H Hr.
    induction r as [|c r IH] using rev_ind; intros q H Hr.
    + rewrite app_nil_r in H. eauto.
    + apply Forall_app in Hr as [Hr Hc]. apply List.Forall_inv in Hc.
      destruct q as [|c' q _] using rev_ind.
      * exfalso. rewrite app_nil_r in H.
        destruct w as [|c' w _] using rev_ind; [done|].
        rewrite !app_assoc in H. apply app_inj_tail in H as [_ <-].
        apply Forall_app in Hw as [_ Hw]. apply List.Forall_inv in Hw.
        congruence.
      * rewrite !app_assoc in H. apply app_inj_tail in H as [H _].
        rewrite <- !app_assoc in H. eauto.
  - destruct p as [|c' p]; simpl in H.
    + exfalso. destruct w as [|c' w]; [done|]. simpl in H.
      injection H as <- _. inversion Hw; congruence.
    + injection H as <- H. eauto.
Qed.

Lemma contains_trim (w l x r : pystr) :
  w <> [] -> solid w -> blank l -> blank r ->
  contains w (l ++ x ++ r) = contains w x.
Proof.
  intros Hne Hw Hl Hr. apply eq_true_iff_eq. rewrite !contains_spec. split.
  - intros (p & q & H). by apply (occurs_inside w l x r p q).
  - intros (p & q & ->). exists (l ++ p), (q ++ r). by rewrite <- !app_assoc.
Qed.

(** Trimming a message changes nothing to the words found in its lower-cased
    text, as long as the words have no whitespace in them. *)
Lemma contains_lower_strip (w m : pystr) :
  w <> [] -> solid w ->
  contains w (lower (strip m)) = contains w (lower m).
Proof.
  intros Hne Hw. destruct (strip_split m) as (l & r & Hm & Hl & Hr).
  rewrite Hm at 2. rewrite !lower_app, (lower_blank l Hl), (lower_blank r Hr).
  symmetry. by apply contains_trim.
Qed.

Lemma any_in_lower_strip (ws : list pystr) (m : pystr) :
  Forall (fun w => w <> [] /\ solid w) ws ->
  any_in ws (lower (strip m)) = any_in ws (lower m).
Proof.
  unfold any_in. induction 1 as [|w ws [Hne Hw] _ IH]; simpl; [done|].
  by rewrite IH, contains_lower_strip.
Qed.

Lemma words_solid :
  Forall (fun w => w <> [] /\ solid w)
    (stress_words ++ purpose_words ++ relationship_words ++ career_words).
Proof.
  apply Forall_forall. intros w Hw.
  repeat (apply elem_of_cons in Hw as [-> | Hw];
          [split; [discriminate | by repeat constructor] |]).
  by apply elem_of_nil in Hw.
Qed.

(** A message in which a bucket word occurs is not empty after trimming. *)
Lemma word_found_not_blank (ws : list pystr) (m : pystr) :
  Forall (fun w => w <> [] /\ solid w) ws ->
  any_in ws (lower m) = true -> strip m <> [].
Proof.
  intros Hws Hin Hnil. rewrite <- (any_in_lower_strip ws m Hws), Hnil in Hin.
  unfold any_in in Hin. apply existsb_exists in Hin as (w & Hw & Hc).
  rewrite Forall_forall in Hws. apply list_elem_of_In, Hws in Hw as [Hne _].
  destruct w; [done | discriminate].
Qed.

(** ** The reply synthesizer *)

(** [core], read on the message as it was sent. *)
Lemma core_chain (m : pystr) :
  strip m <> [] ->
  core (strip m) =
    if any_in stress_words (lower m) then stress_core
    else if any_in purpose_words (lower m) then purpose_core
    else if any_in relationship_words (lower m) then relationship_core
    else if any_in career_words (lower m) then career_core
    else default_core.
Proof.
  intros Hne. pose proof words_solid as Hw.
  apply Forall_app in Hw as [Hs Hw]. apply Forall_app in Hw as [Hp Hw].
  apply Forall_app in Hw as [Hr Hc].
  rewrite <- (any_in_lower_strip _ m Hs), <- (any_in_lower_strip _ m Hp),
    <- (any_in_lower_strip _ m Hr), <- (any_in_lower_strip _ m Hc).
  unfold core. by destruct (strip m).
Qed.

Lemma unknown_lookup (a : pystr) :
  a ∉ known_archetypes -> preface !! a = None /\ tailoring !! a = None.
Proof.
  intros Ha. split; apply not_elem_of_list_to_map_1; exact Ha.
Qed.

Lemma known_lookup (k : pystr) :
  k ∈ known_archetypes ->
  exists opening tail,
    preface !! k = Some opening /\ tailoring !! k = Some tail /\
    opening <> str "Guidance:" /\ tail <> [].
Proof.
  intros Hk.
  repeat (apply elem_of_cons in Hk as [-> | Hk];
          [eexists _, _; repeat split; [vm_compute; reflexivity ..| |];
           discriminate |]).
  by apply elem_of_nil in Hk.
Qed.

(** C3: a message that is not empty after trimming and has a stress word in
    its lower-cased text gets the grounding-breath core reply, whatever
    other bucket words it has; the buckets are tried in the order stress,
    purpose, relationship, career, default, and the first that matches
    gives the core reply. *)
Theorem stress_bucket_first (archetype message : pystr) :
  strip message <> [] ->
  let a := lower archetype in
  let reply c :=
    dict_get preface a (str "Guidance:") ++ str " " ++ c
    ++ dict_get tailoring a (str "") in
  let found ws := any_in ws (lower message) in
  (found stress_words = true ->
   generate_guru_reply archetype message = reply stress_core) /\
  (found stress_words = false -> found purpose_words = true ->
   generate_guru_reply archetype message = reply purpose_core) /\
  (found stress_words = false -> found purpose_words = false ->
   found relationship_words = true ->
   generate_guru_reply archetype message = reply relationship_core) /\
  (found stress_words = false -> found purpose_words = false ->
   found relationship_words = false -> found career_words = true ->
   generate_guru_reply archetype message = reply career_core) /\
  (found stress_words = false -> found purpose_words = false ->
   found relationship_words = false -> found career_words = false ->
   generate_guru_reply archetype message = reply default_core).
Proof.
  intros Hne a reply found. unfold generate_guru_reply.
  rewrite (core_chain message Hne). fold a. subst found. cbv beta.
  repeat split; intros; repeat match goal with H : any_in _ _ = _ |- _ =>
    rewrite H; clear H end; reflexivity.
Qed.

Lemma stress_bucket_first_witness :
  strip (str "My JOB makes me Anxious") <> [] /\
  generate_guru_reply (str "monk") (str "My JOB makes me Anxious") =
    str "Monastic Wisdom:" ++ str " " ++ stress_core
    ++ str " Choose quiet courage. Consistency is a humble miracle.".
Proof.
  split; [discriminate|].
  apply (stress_bucket_first (str "monk") (str "My JOB makes me Anxious"));
    [discriminate | vm_compute; reflexivity].
Defined.

(** C4: a message that is empty after trimming gets the silence core reply,
    between the opening label of the archetype, one space, and the tailoring
    suffix of the archetype with nothing before it. *)
Theorem empty_message_silence (archetype message : pystr) :
  strip message = [] ->
  generate_guru_reply archetype message =
    dict_get preface (lower archetype) (str "Guidance:") ++ str " "
    ++ silence_core ++ dict_get tailoring (lower archetype) (str "").
Proof.
  intros H. unfold generate_guru_reply. by rewrite H.
Qed.

Lemma empty_message_silence_witness :
  strip (str "   ") = [] /\
  generate_guru_reply (str "yogi") (str "   ") =
    str "Yogic Guidance:" ++ str " " ++ silence_core
    ++ str " Align breath and intention; the posture of your day shapes the posture of your mind.".
Proof.
  split; [reflexivity|].
  apply (empty_message_silence (str "yogi") (str "   ")). reflexivity.
Defined.

(** C5, as stated, fails: ["ZEN"] is not one of the five archetype strings,
    yet the reply to it opens with the zen label, not with ["Guidance:"]. *)
Lemma unknown_archetype_literal_fails :
  ~ (forall archetype message : pystr,
       archetype ∉ known_archetypes ->
       generate_guru_reply archetype message =
         str "Guidance:" ++ str " " ++ core (strip message) ++ str "").
Proof.
  intros H. specialize (H (str "ZEN") (str "")).
  assert (Hn : str "ZEN" ∉ known_archetypes).
  { intros Hin.
    repeat (apply elem_of_cons in Hin as [Hin | Hin]; [discriminate |]).
    by apply elem_of_nil in Hin. }
  apply H in Hn. vm_compute in Hn. discriminate.
Qed.

(** C5, amended: when the lower-cased archetype is none of the five known
    archetypes, the reply is ["Guidance:"], one space, the core reply of the
    message, and an empty tailoring suffix. *)
Theorem unknown_archetype_generic (archetype message : pystr) :
  lower archetype ∉ known_archetypes ->
  dict_get preface (lower archetype) (str "Guidance:") = str "Guidance:" /\
  dict_get tailoring (lower archetype) (str "") = str "" /\
  generate_guru_reply archetype message =
    str "Guidance:" ++ str " " ++ core (strip message) ++ str "".
Proof.
  intros Ha. apply unknown_lookup in Ha as [Hp Ht].
  unfold generate_guru_reply, dict_get. by rewrite Hp, Ht.
Qed.

Lemma unknown_archetype_generic_witness :
  generate_guru_reply (str "Druid") (str "I lost my job") =
    str "Guidance:" ++ str " " ++ career_core ++ str "".
Proof.
  apply (unknown_archetype_generic (str "Druid") (str "I lost my job")).
  intros Hin.
  repeat (apply elem_of_cons in Hin as [Hin | Hin]; [discriminate |]).
  by apply elem_of_nil in Hin.
Defined.

(** C10: an archetype that lower-cases to one of the five known archetypes
    gets the opening label and the tailoring suffix of that archetype, which
    are not the generic label and the empty suffix. *)
Theorem archetype_case_insensitive (archetype known message : pystr) :
  known ∈ known_archetypes ->
  lower archetype = lower known ->
  exists opening tail,
    preface !! known = Some opening /\ tailoring !! known = Some tail /\
    opening <> str "Guidance:" /\ tail <> str "" /\
    generate_guru_reply archetype message =
      opening ++ str " " ++ core (strip message) ++ tail.
Proof.
  intros Hk Ha.
  assert (Hl : lower known = known).
  { clear Ha. repeat (apply elem_of_cons in Hk as [-> | Hk]; [reflexivity |]).
    by apply elem_of_nil in Hk. }
  destruct (known_lookup known Hk) as (opening & tail & Hp & Ht & Ho & Hn).
  exists opening, tail. repeat split; try done.
  unfold generate_guru_reply, dict_get. by rewrite Ha, Hl, Hp, Ht.
Qed.

Lemma archetype_case_insensitive_witness :
  exists opening tail,
    preface !! str "zen" = Some opening /\ tailoring !! str "zen" = Some tail /\
    opening <> str "Guidance:" /\ tail <> str "" /\
    generate_guru_reply (str "ZeN") (str "hello") =
      opening ++ str " " ++ core (strip (str "hello")) ++ tail.
Proof.
  apply (archetype_case_insensitive (str "ZeN") (str "zen") (str "hello")).
  - by left.
  - reflexivity.
Defined.

(** ** Running programs *)

Lemma run_bind {S A B} (b : backend S) (f : A -> io B) (p : io A) (s : S) :
  run b (io_bind f p) s =
    let '(a, s1, l1) := run b p s in
    let '(x, s2, l2) := run b (f a) s1 in
    (x, s2, l1 ++ l2).
Proof.
  revert s. induction p as [a | c q k IH | c d k IH]; intros s; simpl.
  - by destruct (run b (f a) s) as [[x s2] l2].
  - destruct (on_get b c q s) as [r s1]. rewrite IH.
    destruct (run b (k r) s1) as [[a s2] l1].
    by destruct (run b (f a) s2) as [[x s3] l2].
  - destruct (on_create b c d s) as [r s1]. rewrite IH.
    destruct (run b (k r) s1) as [[a s2] l1].
    by destruct (run b (f a) s2) as [[x s3] l2].
Qed.

(** The seeding loop calls the store once per persona, whatever the store
    answers. *)
Lemma seed_calls {S} (b : backend S) (gs : list doc) (s : S) :
  call_of <$> calls (run b (seed gs) s) = CCreate (str "guru") <$> gs
  /\ existsb failed_query (calls (run b (seed gs) s)) = false.
Proof.
  revert s. induction gs as [|g gs IH]; intros s; [done|].
  cbn [seed]. io_unfold. cbn [create_document io_bind run].
  destruct (on_create b (str "guru") g s) as [r s1].
  specialize (IH s1). destruct (run b (seed gs) s1) as [[[] s2] log].
  unfold calls in *. cbn [snd fmap list_fmap call_of existsb failed_query orb] in *.
  destruct IH as [-> ->]. done.
Qed.

(** ** Listing the personas *)

Lemma normalize_defaults : normalize <$> defaults = defaults.
Proof. vm_compute. reflexivity. Qed.

(** [list_gurus] against any store, call by call. *)
Lemma list_gurus_run {S} (b : backend S) (s : S) :
  run b list_gurus s =
    let '(r, s1) := on_get b (str "guru") None s in
    match r with
    | Raise => (defaults, s1, [EGet (str "guru") None Raise])
    | Ok [] =>
        let '(_, s2, log) := run b (seed defaults) s1 in
        let '(r', s3) := on_get b (str "guru") None s2 in
        (match r' with
         | Ok docs => normalize <$> docs
         | Raise => defaults
         end, s3,
         EGet (str "guru") None (Ok []) :: log ++ [EGet (str "guru") None r'])
    | Ok (d :: docs) =>
        (normalize <$> (d :: docs), s1,
         [EGet (str "guru") None (Ok (d :: docs))])
    end.
Proof.
  unfold list_gurus. io_unfold. cbn [get_documents io_bind run].
  destruct (on_get b (str "guru") None s) as [[[|d docs]|] s1].
  - rewrite !run_bind.
    destruct (run b (seed defaults) s1) as [[[] s2] log].
    cbn [io_bind run].
    destruct (on_get b (str "guru") None s2) as [[docs|] s3]; cbn [run];
      rewrite ?normalize_defaults; by rewrite ?app_nil_r.
  - cbn [io_bind run]. done.
  - cbn [io_bind run]. by rewrite normalize_defaults.
Qed.



(** ** The working store *)

Section WorkingStore.

Variable genid : nat -> pystr.

Lemma documents_insert (c : pystr) (d : doc) (s : store) :
  documents (store_insert genid c d s).2 c =
    documents s c ++ [<[str "_id" := VStr (genid (next_id s))]> d].
Proof.
  unfold store_insert, documents at 1. cbn [snd collections].
  by rewrite lookup_insert_eq.
Qed.

Lemma seed_working (gs : list doc) (s : store) :
  documents (final (run (working genid) (seed gs) s)) (str "guru") =
    documents s (str "guru") ++ stored genid (next_id s) gs.
Proof.
  revert s. induction gs as [|g gs IH]; intros s.
  - cbn. by rewrite app_nil_r.
  - cbn [seed]. io_unfold.
    cbn [create_document io_bind run working on_create].
    pose proof (documents_insert (str "guru") g s) as Hd.
    assert (Hn : next_id (store_insert genid (str "guru") g s).2
                 = S (next_id s)) by done.
    destruct (store_insert genid (str "guru") g s) as [r s1].
    cbn [snd] in Hd, Hn. specialize (IH s1).
    destruct (run (working genid) (seed gs) s1) as [[[] s2] log].
    unfold final in *. cbn [fst snd] in *.
    by rewrite IH, Hd, Hn, <- app_assoc.
Qed.

Lemma normalize_stored (n : nat) (gs : list doc) :
  Forall (fun g => g !! str "_id" = None) gs ->
  normalize <$> stored genid n gs = listed genid n gs.
Proof.
  intros H. revert n. induction H as [|g gs Hg _ IH]; intros n; [done|].
  cbn [stored listed fmap list_fmap]. f_equal; [|apply IH].
  unfold normalize. by rewrite lookup_insert_eq, delete_insert_eq, delete_id.
Qed.

Lemma listed_fields (n : nat) (gs : list doc) :
  Forall (fun g => g !! str "id" = None) gs ->
  delete (str "id") <$> listed genid n gs = gs /\
  archetype_of <$> listed genid n gs = archetype_of <$> gs.
Proof.
  intros H. revert n. induction H as [|g gs Hg _ IH]; intros n; [done|].
  destruct (IH (S n)) as [IH1 IH2]. cbn [listed fmap list_fmap].
  split; f_equal; try done.
  - by rewrite delete_insert_eq, delete_id.
  - unfold archetype_of. by rewrite lookup_insert_ne.
Qed.

Lemma stored_length (n : nat) (gs : list doc) :
  length (stored genid n gs) = length gs.
Proof. revert n. induction gs; intros n; cbn; [done | by f_equal]. Qed.

(** [list_gurus] against a working store without personas: it seeds the
    store and lists what it seeded. *)
Lemma list_gurus_seeds (s : store) :
  documents s (str "guru") = [] ->
  let x := run (working genid) list_gurus s in
  answer x = listed genid (next_id s) defaults /\
  documents (final x) (str "guru") = stored genid (next_id s) defaults /\
  call_of <$> calls x =
    CGet (str "guru") None :: (CCreate (str "guru") <$> defaults)
    ++ [CGet (str "guru") None].
Proof.
  intros He x. subst x. rewrite list_gurus_run.
  cbn [working on_get store_query]. rewrite He.
  pose proof (seed_working defaults s) as Hs.
  pose proof (seed_calls (working genid) defaults s) as [Hc _].
  destruct (run (working genid) (seed defaults) s) as [[[] s2] log].
  unfold answer, final, calls in *. cbn [fst snd] in *.
  rewrite He in Hs. cbn [app] in Hs. rewrite Hs.
  split; [|split; [done|]].
  - apply normalize_stored. by repeat constructor.
  - cbn [fmap list_fmap call_of]. by rewrite fmap_app, Hc.
Qed.

(** [list_gurus] against a working store that holds personas: one query,
    no write. *)
Lemma list_gurus_lists (s : store) :
  documents s (str "guru") <> [] ->
  run (working genid) list_gurus s =
    (normalize <$> documents s (str "guru"), s,
     [EGet (str "guru") None (Ok (documents s (str "guru")))]).
Proof.
  intros Hne. rewrite list_gurus_run. cbn [working on_get store_query].
  by destruct (documents s (str "guru")).
Qed.

End WorkingStore.

(** C7, as stated, fails: a store that is empty and answers every query,
    but refuses the write of the yogi persona, is left with four personas,
    and these four are what [list_gurus] returns. *)
Lemma seeding_with_refused_write :
  ~ (forall (S : Type) (b : backend S) (s : S),
       (on_get b (str "guru") None s).1 = Ok [] ->
       archetype_of <$> answer (run b list_gurus s) =
         (fun a => Some (VStr a)) <$> known_archetypes).
Proof.
  intros H.
  specialize (H store (selective tally refuses_yogi) (Store ∅ 0) eq_refl).
  vm_compute in H. discriminate.
Qed.

(** C7, amended: [list_gurus] on a store whose query finds no persona writes the five
    defaults, one call each whatever the writes answer, and queries again;
    on a working store it then returns the five defaults, each with its
    identifier; a second call makes the one query only, leaves the store as
    it is and returns the same five personas, with five distinct
    archetypes. *)
Theorem seeding_once {S} (b : backend S) (s0 : S)
    (genid : nat -> pystr) (s : store) :
  ((on_get b (str "guru") None s0).1 = Ok [] ->
   call_of <$> calls (run b list_gurus s0) =
     CGet (str "guru") None :: (CCreate (str "guru") <$> defaults)
     ++ [CGet (str "guru") None]) /\
  (documents s (str "guru") = [] ->
   let first := run (working genid) list_gurus s in
   let second := run (working genid) list_gurus (final first) in
   archetype_of <$> answer first = (fun a => Some (VStr a)) <$> known_archetypes /\
   delete (str "id") <$> answer first = defaults /\
   length (documents (final first) (str "guru")) = 5%nat /\
   call_of <$> calls second = [CGet (str "guru") None] /\
   final second = final first /\
   answer second = answer first /\
   NoDup (archetype_of <$> answer second)).
Proof.
  split.
  - intros H. rewrite list_gurus_run.
    destruct (on_get b (str "guru") None s0) as [r s1]. cbn [fst] in H.
    subst r. pose proof (seed_calls b defaults s1) as [Hc _].
    destruct (run b (seed defaults) s1) as [[[] s2] log].
    destruct (on_get b (str "guru") None s2) as [r' s3].
    unfold calls in *. cbn [fst snd fmap list_fmap call_of] in *.
    by rewrite fmap_app, Hc.
  - intros He first second.
    destruct (list_gurus_seeds genid s He) as (Ha & Hd & _).
    fold first in Ha, Hd.
    assert (Hf : Forall (fun g : doc => g !! str "id" = None) defaults)
      by by repeat constructor.
    destruct (listed_fields genid (next_id s) defaults Hf) as [Hdel Harch].
    assert (Hne : documents (final first) (str "guru") <> [])
      by by rewrite Hd.
    assert (H2 : second =
      (listed genid (next_id s) defaults, final first,
       [EGet (str "guru") None (Ok (documents (final first) (str "guru")))])).
    { subst second. rewrite (list_gurus_lists genid _ Hne), Hd.
      by rewrite normalize_stored by by repeat constructor. }
    rewrite H2, Ha. unfold answer, final, calls. cbn [fst snd].
    repeat split; try done.
    + unfold final in Hd. by rewrite Hd, stored_length.
    + rewrite Harch. apply (bool_decide_unpack _). vm_compute. exact I.
Qed.

Lemma seeding_once_witness :
  let first := run (working tally) list_gurus (Store ∅ 0) in
  let second := run (working tally) list_gurus (final first) in
  documents (Store ∅ 0) (str "guru") = [] /\
  delete (str "id") <$> answer first = defaults /\
  answer second = answer first.
Proof.
  intros first second. split; [reflexivity|].
  destruct (seeding_once (working tally) (Store ∅ 0) tally (Store ∅ 0))
    as [_ H].
  destruct (H eq_refl) as (_ & Hd & _ & _ & _ & Ha & _). by split.
Defined.

(** ** Resolving the persona *)

Lemma named_archetype (name archetype : pystr) :
  named name archetype !! str "archetype" = Some (VStr archetype).
Proof.
  unfold named. rewrite !list_to_map_cons. cbn [fst snd].
  by rewrite lookup_insert_ne, lookup_insert_eq.
Qed.

Lemma guru_filter_spec (guru_id : pystr) (d : doc) :
  matches (guru_filter guru_id) d = true <->
  d !! str "archetype" = Some (VStr guru_id) \/
  d !! str "_id" = Some (VStr guru_id).
Proof.
  cbn [guru_filter matches existsb]. rewrite orb_false_r, orb_true_iff.
  by rewrite !bool_decide_eq_true.
Qed.

(** A document that satisfies the query has a field, so it is not the empty
    dictionary. *)
Lemma guru_filter_nonempty (guru_id : pystr) (d : doc) :
  matches (guru_filter guru_id) d = true -> d <> ∅.
Proof.
  intros H ->. apply guru_filter_spec in H. rewrite !lookup_empty in H.
  by destruct H.
Qed.

(** The fallback loop finds the built-in persona whose archetype is the
    requested identifier, when there is one. *)
Lemma builtin_found (guru_id : pystr) :
  guru_id ∈ known_archetypes ->
  exists g, lookup_guru guru_id (Ok []) = Some g /\ g <> ∅ /\
            g !! str "archetype" = Some (VStr guru_id).
Proof.
  intros H.
  repeat (apply elem_of_cons in H as [-> | H];
          [eexists; split; [vm_compute; reflexivity |
             split; [discriminate | vm_compute; reflexivity]] |]).
  by apply elem_of_nil in H.
Qed.

Lemma builtin_missing (guru_id : pystr) :
  guru_id ∉ known_archetypes -> lookup_guru guru_id (Ok []) = None.
Proof.
  intros H. unfold lookup_guru, builtin_gurus. cbn [List.find].
  rewrite !named_archetype.
  repeat (rewrite bool_decide_eq_false_2;
          [| intros [= <-]; apply H; set_solver ]).
  reflexivity.
Qed.

Lemma lookup_guru_raise (guru_id : pystr) :
  lookup_guru guru_id Raise = lookup_guru guru_id (Ok []).
Proof. reflexivity. Qed.

(** ** One exchange *)

Lemma message_doc_conversation (conv_id : option pystr)
    (role content guru_id : pystr) :
  message_doc conv_id role content guru_id !! str "conversation_id"
  = Some (opt_value conv_id).
Proof.
  unfold message_doc. rewrite !list_to_map_cons. cbn [fst snd].
  by rewrite lookup_insert_eq.
Qed.

Lemma store_messages_run {S} (b : backend S) (payload : AskRequest.t)
    (conv_id : option pystr) (reply : pystr) (s : S) :
  let x := run b (store_messages payload conv_id reply) s in
  answer x =
    (if existsb failed_write (calls x) then on_exception conv_id reply
     else respond conv_id reply) /\
  Forall (message_write conv_id) (calls x).
Proof.
  unfold store_messages. io_unfold. cbn [create_document io_bind run].
  destruct (on_create b _ _ s) as [[i1|] s1]; cbn [io_bind run].
  - destruct (on_create b _ _ s1) as [[i2|] s2]; cbn [io_bind run];
      (split; [done|]);
      repeat (constructor;
              [eexists _, _; split; [done | apply message_doc_conversation]|]);
      constructor.
  - split; [done|].
    repeat (constructor;
            [eexists _, _; split; [done | apply message_doc_conversation]|]);
    constructor.
Qed.

Lemma message_write_kind (conv_id : option pystr) (e : event) :
  message_write conv_id e -> creates_conversation e = false.
Proof. by intros (d & r & -> & _). Qed.

Lemma no_conversation_write (conv_id : option pystr) (log : list event) :
  Forall (message_write conv_id) log ->
  existsb creates_conversation log = false.
Proof.
  induction 1 as [|e log He _ IH]; [done|].
  cbn [existsb]. by rewrite (message_write_kind conv_id e He), IH.
Qed.

Lemma persist_run {S} (b : backend S) (payload : AskRequest.t)
    (reply : pystr) (s : S) :
  let x := run b (persist payload reply) s in
  let conv_id := current_id payload (calls x) in
  answer x =
    (if existsb failed_write (calls x) then on_exception conv_id reply
     else respond conv_id reply) /\
  (truthy (AskRequest.conversation_id payload) = true ->
   Forall (message_write (AskRequest.conversation_id payload)) (calls x)).
Proof.
  unfold persist, current_id.
  destruct (truthy (AskRequest.conversation_id payload)) eqn:Ht.
  - destruct (store_messages_run b payload
                (AskRequest.conversation_id payload) reply s) as [Ha Hw].
    by split.
  - io_unfold. cbn [create_document io_bind run].
    destruct (on_create b _ _ s) as [[new_id|] s1]; cbn [io_bind run].
    + destruct (store_messages_run b payload (Some new_id) reply s1)
        as [Ha Hw].
      destruct (run b (store_messages payload (Some new_id) reply) s1)
        as [[a s2] log].
      unfold answer, calls in *. cbn [fst snd] in *. by split.
    + unfold answer, calls, on_exception. cbn. by rewrite Ht.
Qed.

(** [ask_guru] against any store, up to the [try] statement. *)
Lemma ask_guru_run {S} (b : backend S) (payload : AskRequest.t) (s : S) :
  let guru_id := AskRequest.guru_id payload in
  let query := Some (guru_filter guru_id) in
  run b (ask_guru payload) s =
    let '(r, s1) := on_get b (str "guru") query s in
    match lookup_guru guru_id r with
    | None => (not_found, s1, [EGet (str "guru") query r])
    | Some guru =>
        if bool_decide (guru = ∅)
        then (not_found, s1, [EGet (str "guru") query r])
        else
          match default (VStr (str "zen")) (guru !! str "archetype") with
          | VStr archetype =>
              let reply :=
                generate_guru_reply archetype
                  (AskRequest.user_message payload) in
              let '(response, s2, log) := run b (persist payload reply) s1 in
              (Returns response, s2, EGet (str "guru") query r :: log)
          | VNone => (AttributeError, s1, [EGet (str "guru") query r])
          end
    end.
Proof.
  intros guru_id query. unfold ask_guru. io_unfold.
  cbn [get_documents io_bind run]. fold guru_id. fold query.
  destruct (on_get b (str "guru") query s) as [r s1]. cbn [io_bind].
  destruct (lookup_guru guru_id r) as [guru|]; [|done].
  case_bool_decide; [done|].
  destruct (default (VStr (str "zen")) (guru !! str "archetype"));
    [done|].
  rewrite run_bind.
  destruct (run b (persist payload _) s1) as [[response s2] log].
  cbn [run]. by rewrite app_nil_r.
Qed.

Lemma ask_guru_not_found {S} (b : backend S) (payload : AskRequest.t) (s : S) :
  let guru_id := AskRequest.guru_id payload in
  let query := Some (guru_filter guru_id) in
  let q := on_get b (str "guru") query s in
  q.1 = Ok [] \/ q.1 = Raise ->
  guru_id ∉ known_archetypes ->
  run b (ask_guru payload) s = (not_found, q.2, [EGet (str "guru") query q.1]).
Proof.
  intros guru_id query q Hq Hg. rewrite ask_guru_run. fold guru_id query q.
  destruct q as [r s1]. cbn [fst snd] in *.
  assert (Hl : lookup_guru guru_id r = None).
  { destruct Hq as [-> | ->]; by apply builtin_missing. }
  by rewrite Hl.
Qed.

Lemma ask_guru_found {S} (b : backend S) (payload : AskRequest.t) (s : S)
    (guru : doc) (archetype : pystr) :
  let guru_id := AskRequest.guru_id payload in
  let query := Some (guru_filter guru_id) in
  let q := on_get b (str "guru") query s in
  let reply :=
    generate_guru_reply archetype (AskRequest.user_message payload) in
  let p := run b (persist payload reply) q.2 in
  lookup_guru guru_id q.1 = Some guru -> guru <> ∅ ->
  default (VStr (str "zen")) (guru !! str "archetype") = VStr archetype ->
  run b (ask_guru payload) s =
    (Returns (answer p), final p, EGet (str "guru") query q.1 :: calls p).
Proof.
  intros guru_id query q reply p Hl Hne Ha. rewrite ask_guru_run.
  fold guru_id query q. subst p. destruct q as [r s1]. cbn [fst snd] in *.
  rewrite Hl, bool_decide_eq_false_2, Ha by done. fold reply.
  by destruct (run b (persist payload reply) s1) as [[response s2] log].
Qed.

Lemma response_reply (conv_id : option pystr) (reply : pystr) (failed : bool) :
  exists conv,
    (if failed then on_exception conv_id reply else respond conv_id reply)
    = AskResponse.Build conv reply.
Proof. destruct failed; by eexists. Qed.

(** C1: when the persona resolves, [ask_guru] returns a response with the
    synthesized reply whatever the store answers to the writes; when a write
    raised, the conversation identifier of the response is not empty: it is
    the identifier held at that point (the one of the request, or the one
    the conversation write returned) and, when there is none, the
    placeholder ["temp-session"]. *)
Theorem persistence_failure_tolerated {S} (b : backend S) (s : S)
    (payload : AskRequest.t) (guru : doc) (archetype : pystr) :
  let guru_id := AskRequest.guru_id payload in
  let q := on_get b (str "guru") (Some (guru_filter guru_id)) s in
  let reply :=
    generate_guru_reply archetype (AskRequest.user_message payload) in
  let x := run b (ask_guru payload) s in
  lookup_guru guru_id q.1 = Some guru -> guru <> ∅ ->
  default (VStr (str "zen")) (guru !! str "archetype") = VStr archetype ->
  exists conv,
    answer x = Returns (AskResponse.Build conv reply) /\
    (existsb failed_write (calls x) = true ->
     conv <> [] /\
     conv = match current_id payload (calls x) with
            | Some (c :: i) => c :: i
            | _ => str "temp-session"
            end).
Proof.
  intros guru_id q reply x Hl Hne Ha. subst x.
  rewrite (ask_guru_found b payload s guru archetype Hl Hne Ha).
  fold guru_id q reply.
  destruct (persist_run b payload reply q.2) as [Hp _].
  destruct (run b (persist payload reply) q.2) as [[response s2] log].
  unfold answer, calls in *. cbn [fst snd] in *.
  change (existsb failed_write (EGet (str "guru") (Some (guru_filter guru_id)) q.1 :: log))
    with (existsb failed_write log).
  change (current_id payload (EGet (str "guru") (Some (guru_filter guru_id)) q.1 :: log))
    with (current_id payload log).
  rewrite Hp. destruct (existsb failed_write log).
  - eexists. split; [reflexivity|]. intros _.
    destruct (current_id payload log) as [[|c i]|]; by split.
  - eexists. split; [reflexivity|]. discriminate.
Qed.

Lemma persistence_failure_tolerated_witness :
  answer (run unavailable (ask_guru zen_request) tt) =
    Returns
      (AskResponse.Build (str "temp-session")
         (generate_guru_reply (str "zen") (str "I'm stressed about work"))).
Proof.
  destruct (persistence_failure_tolerated unavailable tt zen_request
              (named (str "Zen Teacher") (str "zen")) (str "zen"))
    as (conv & Ha & Hf); [reflexivity | discriminate | reflexivity |].
  destruct (Hf eq_refl) as [_ Hc]. rewrite Ha, Hc. reflexivity.
Defined.

(** C9: a request that carries a conversation identifier makes no
    conversation write, whatever the store answers: the writes it makes are
    message writes under that identifier, and the response, when there is
    one, carries that identifier. *)
Theorem supplied_conversation_reused {S} (b : backend S) (s : S)
    (payload : AskRequest.t) (conv_id : pystr) :
  AskRequest.conversation_id payload = Some conv_id -> conv_id <> [] ->
  let x := run b (ask_guru payload) s in
  existsb creates_conversation (calls x) = false /\
  Forall (fun e => is_write e = true -> message_write (Some conv_id) e)
    (calls x) /\
  (forall response,
     answer x = Returns response ->
     AskResponse.conversation_id response = conv_id).
Proof.
  intros Hc Hne x. subst x. rewrite ask_guru_run.
  destruct (on_get b _ _ s) as [r s1].
  assert (Ht : truthy (AskRequest.conversation_id payload) = true).
  { rewrite Hc. by destruct conv_id. }
  destruct (lookup_guru _ r) as [guru|];
    [case_bool_decide;
     [|destruct (default (VStr (str "zen")) (guru !! str "archetype"))
         as [|archetype]]|];
    try (unfold answer, calls; cbn [fst snd existsb creates_conversation orb];
         split; [done|]; split; [by repeat constructor | discriminate]).
  cbn zeta.
  destruct (persist_run b payload
              (generate_guru_reply archetype (AskRequest.user_message payload))
              s1) as [Ha Hw].
  specialize (Hw Ht). rewrite Hc in Hw.
  destruct (run b (persist payload _) s1) as [[response s2] log].
  unfold answer, calls in *. cbn [fst snd] in *. split; [|split].
  - cbn [existsb creates_conversation orb].
    by apply (no_conversation_write (Some conv_id)).
  - constructor; [discriminate|].
    eapply Forall_impl; [exact Hw | by intros e He _].
  - intros ? [= <-]. rewrite Ha. unfold current_id, on_exception.
    rewrite Ht, Hc. cbn [truthy]. destruct conv_id; [done|].
    by destruct (existsb failed_write log).
Qed.

Lemma supplied_conversation_reused_witness :
  let x := run (working tally) (ask_guru follow_up) (Store ∅ 0) in
  existsb creates_conversation (calls x) = false /\
  forall response,
    answer x = Returns response ->
    AskResponse.conversation_id response = str "c-1".
Proof.
  destruct (supplied_conversation_reused (working tally) (Store ∅ 0)
              follow_up (str "c-1")) as (Hn & _ & Hr);
    [reflexivity | discriminate | by split].
Defined.

Lemma resolution_by_query {S} (b : backend S) (s : S)
    (payload : AskRequest.t) :
  let guru_id := AskRequest.guru_id payload in
  let message := AskRequest.user_message payload in
  let query := Some (guru_filter guru_id) in
  let q := on_get b (str "guru") query s in
  let x := run b (ask_guru payload) s in
  (exists log, calls x = EGet (str "guru") query q.1 :: log) /\
  (forall g docs,
     q.1 = Ok (g :: docs) -> g <> ∅ ->
     match default (VStr (str "zen")) (g !! str "archetype") with
     | VStr archetype =>
         exists conv,
           answer x =
             Returns
               (AskResponse.Build conv (generate_guru_reply archetype message))
     | VNone => answer x = AttributeError
     end) /\
  (q.1 = Ok [] \/ q.1 = Raise ->
   guru_id ∈ known_archetypes ->
   exists conv,
     answer x =
       Returns (AskResponse.Build conv (generate_guru_reply guru_id message))) /\
  (q.1 = Ok [] \/ q.1 = Raise ->
   guru_id ∉ known_archetypes ->
   answer x = not_found /\ calls x = [EGet (str "guru") query q.1]).
Proof.
  intros guru_id message query q x.
  assert (Hfound : forall guru archetype,
    lookup_guru guru_id q.1 = Some guru -> guru <> ∅ ->
    default (VStr (str "zen")) (guru !! str "archetype") = VStr archetype ->
    exists conv,
      answer x =
        Returns (AskResponse.Build conv (generate_guru_reply archetype message))).
  { intros guru archetype Hl Hne Ha. subst x.
    rewrite (ask_guru_found b payload s guru archetype Hl Hne Ha).
    fold guru_id query q message.
    destruct (persist_run b payload (generate_guru_reply archetype message)
                q.2) as [Hp _].
    unfold answer at 1. cbn [fst]. rewrite Hp.
    destruct (response_reply (current_id payload (calls (run b (persist
      payload (generate_guru_reply archetype message)) q.2)))
      (generate_guru_reply archetype message)
      (existsb failed_write (calls (run b (persist payload
         (generate_guru_reply archetype message)) q.2)))) as [conv ->].
    by exists conv. }
  split; [|split; [|split]].
  - subst x. rewrite ask_guru_run. fold guru_id query q message.
    destruct q as [r s1]. cbn [fst].
    destruct (lookup_guru guru_id r) as [guru|]; [|by eexists].
    case_bool_decide; [by eexists|].
    destruct (default _ _); [by eexists|].
    cbn zeta. destruct (run b (persist payload _) s1) as [[response s2] log].
    by eexists.
  - intros g docs Hq Hne.
    destruct (default (VStr (str "zen")) (g !! str "archetype"))
      as [|archetype] eqn:Ha.
    + subst x. rewrite ask_guru_run. fold guru_id query q.
      destruct q as [r s1]. cbn [fst] in Hq. subst r. cbn [lookup_guru].
      by rewrite bool_decide_eq_false_2, Ha.
    + apply (Hfound g archetype); [by rewrite Hq | done | done].
  - intros Hq Hk.
    destruct (builtin_found guru_id Hk) as (g & Hl & Hne & Ha).
    apply (Hfound g guru_id); [|done | by rewrite Ha].
    by destruct Hq as [-> | ->].
  - intros Hq Hk. subst x.
    by rewrite (ask_guru_not_found b payload s Hq Hk).
Qed.

(** C2: [ask_guru] first queries the store with the filter
    [{"$or": [{"archetype": guru_id}, {"_id": guru_id}]}], which a document
    satisfies exactly when its archetype or its identifier is [guru_id];
    a failure of the query is not propagated.  When the query returns
    documents, the first one is the persona (it is not the empty dictionary:
    no document that satisfies the query is), and the reply is synthesized
    from its archetype (["zen"] when it has none).  When the query returns
    none, or raises, the persona is the built-in one whose archetype is
    [guru_id]; and when there is no such built-in persona the call ends with
    "Guru not found", having made no other call. *)
Theorem persona_resolution {S} (b : backend S) (s : S)
    (payload : AskRequest.t) :
  let guru_id := AskRequest.guru_id payload in
  let message := AskRequest.user_message payload in
  let either :=
    FOr [ FieldEq (str "archetype") (VStr guru_id);
          FieldEq (str "_id") (VStr guru_id) ] in
  let query := Some either in
  let q := on_get b (str "guru") query s in
  let x := run b (ask_guru payload) s in
  (forall d : doc,
     matches either d = true <->
     d !! str "archetype" = Some (VStr guru_id) \/
     d !! str "_id" = Some (VStr guru_id)) /\
  (exists log, calls x = EGet (str "guru") query q.1 :: log) /\
  (forall g docs,
     q.1 = Ok (g :: docs) -> g <> ∅ ->
     match default (VStr (str "zen")) (g !! str "archetype") with
     | VStr archetype =>
         exists conv,
           answer x =
             Returns
               (AskResponse.Build conv (generate_guru_reply archetype message))
     | VNone => answer x = AttributeError
     end) /\
  (q.1 = Ok [] \/ q.1 = Raise ->
   guru_id ∈ known_archetypes ->
   exists conv,
     answer x =
       Returns (AskResponse.Build conv (generate_guru_reply guru_id message))) /\
  (q.1 = Ok [] \/ q.1 = Raise ->
   guru_id ∉ known_archetypes ->
   answer x = not_found /\ calls x = [EGet (str "guru") query q.1]).
Proof.
  intros guru_id message either query q x. split.
  - intros d. exact (guru_filter_spec guru_id d).
  - exact (resolution_by_query b s payload).
Qed.

Lemma unknown_persona (a : pystr) :
  a = str "unknown-persona-xyz" -> a ∉ known_archetypes.
Proof.
  intros -> Hin.
  repeat (apply elem_of_cons in Hin as [Hin | Hin]; [discriminate |]).
  by apply elem_of_nil in Hin.
Qed.

Lemma persona_resolution_witness :
  answer (run unavailable (ask_guru stranger) tt) = not_found /\
  (exists conv,
     answer (run unavailable (ask_guru zen_request) tt) =
       Returns
         (AskResponse.Build conv
            (generate_guru_reply (str "zen") (str "I'm stressed about work")))) /\
  (exists conv,
     answer (run (working tally) (ask_guru monk_request) three_gurus) =
       Returns
         (AskResponse.Build conv
            (generate_guru_reply (str "yogi") (str "hello")))).
Proof.
  split; [|split].
  - destruct (persona_resolution unavailable tt stranger)
      as (_ & _ & _ & _ & H).
    destruct (H (or_intror eq_refl) (unknown_persona _ eq_refl)) as [Ha _].
    exact Ha.
  - destruct (persona_resolution unavailable tt zen_request)
      as (_ & _ & _ & H & _).
    apply (H (or_intror eq_refl)). by left.
  - destruct (persona_resolution (working tally) three_gurus monk_request)
      as (_ & _ & H & _).
    assert (Hq : (on_get (working tally) (str "guru")
                    (Some (guru_filter (str "monk"))) three_gurus).1
                 = Ok [ stored_guru (str "monk") (str "Yogi Guide") (str "yogi");
                        stored_guru (str "g-2") (str "Monk Mentor") (str "monk") ])
      by (vm_compute; reflexivity).
    assert (Hne : stored_guru (str "monk") (str "Yogi Guide") (str "yogi") <> ∅)
      by discriminate.
    exact (H _ _ Hq Hne).
Defined.

(** C6: when the store has no persona for [guru_id] (its query returns
    nothing, or raises) and [guru_id] is none of the five built-in
    archetypes, [ask_guru] ends with "Guru not found" and its only call of
    the store is that query: no conversation and no message is written.  On
    the working store, the store after the call is the store before it. *)
Theorem unknown_guru_no_writes {S} (b : backend S) (s : S)
    (genid : nat -> pystr) (st : store) (payload : AskRequest.t) :
  let guru_id := AskRequest.guru_id payload in
  let query := Some (guru_filter guru_id) in
  let q := on_get b (str "guru") query s in
  guru_id ∉ known_archetypes ->
  (q.1 = Ok [] \/ q.1 = Raise ->
   run b (ask_guru payload) s =
     (not_found, q.2, [EGet (str "guru") query q.1]) /\
   List.filter is_write (calls (run b (ask_guru payload) s)) = []) /\
  (List.filter (matches (guru_filter guru_id)) (documents st (str "guru")) = [] ->
   run (working genid) (ask_guru payload) st =
     (not_found, st, [EGet (str "guru") query (Ok [])])).
Proof.
  intros guru_id query q Hk. split.
  - intros Hq. rewrite (ask_guru_not_found b payload s Hq Hk). by split.
  - intros He.
    assert (Hq : (on_get (working genid) (str "guru") query st).1 = Ok [] \/
                 (on_get (working genid) (str "guru") query st).1 = Raise).
    { left. subst query. cbn [working on_get store_query fst].
      by rewrite He. }
    rewrite (ask_guru_not_found (working genid) payload st Hq Hk).
    subst query. cbn [working on_get store_query fst snd].
    fold guru_id. by rewrite He.
Qed.

Lemma unknown_guru_no_writes_witness :
  run (working tally) (ask_guru stranger) (Store ∅ 0) =
    (not_found, Store ∅ 0,
     [EGet (str "guru") (Some (guru_filter (str "unknown-persona-xyz")))
        (Ok [])]).
Proof.
  destruct (unknown_guru_no_writes unavailable tt tally (Store ∅ 0) stranger
              (unknown_persona _ eq_refl)) as [_ H].
  apply H. reflexivity.
Defined.

(** * Further properties *)

(** ** The reply synthesizer *)

Lemma lstrip_app_blank (l s : pystr) : blank l -> lstrip (l ++ s) = lstrip s.
Proof.
  induction 1 as [|c l Hc _ IH]; [done|]. cbn [app lstrip]. by rewrite Hc.
Qed.

Lemma rstrip_app_blank (s r : pystr) : blank r -> rstrip (s ++ r) = rstrip s.
Proof.
  intros Hr. unfold rstrip. rewrite rev_app_distr, lstrip_app_blank; [done|].
  by apply Forall_rev.
Qed.

Lemma strip_app_blank (s r : pystr) : blank r -> strip (s ++ r) = strip s.
Proof.
  intros Hr. unfold strip. induction s as [|c s IH].
  - cbn [app]. by rewrite (lstrip_blank r Hr).
  - cbn [app lstrip]. destruct (isspace c); [exact IH|].
    exact (rstrip_app_blank (c :: s) r Hr).
Qed.

(** X1: whitespace before and after a message does not change the reply. *)
Theorem reply_ignores_margins (archetype l message r : pystr) :
  blank l -> blank r ->
  generate_guru_reply archetype (l ++ message ++ r) =
    generate_guru_reply archetype message.
Proof.
  intros Hl Hr. unfold generate_guru_reply.
  replace (strip (l ++ message ++ r)) with (strip message); [done|].
  rewrite app_assoc, (strip_app_blank _ r Hr). unfold strip.
  by rewrite (lstrip_app_blank l message Hl).
Qed.

Lemma reply_ignores_margins_witness :
  generate_guru_reply (str "monk") ([9; 32] ++ str "my job" ++ [10; 8232]) =
    generate_guru_reply (str "monk") (str "my job").
Proof.
  apply (reply_ignores_margins (str "monk") [9; 32] (str "my job") [10; 8232]);
    by repeat constructor.
Defined.

Lemma lower_cp_blank (c : N) : blank (lower_cp c) <-> isspace c = true.
Proof.
  split.
  - destruct (isspace c) eqn:Hs; [done|]. intros Hb. exfalso.
    unfold lower_cp in Hb.
    destruct ((65 <=? c) && (c <=? 90)) eqn:Hu.
    + apply andb_true_iff in Hu as [Hu1 Hu2]. apply N.leb_le in Hu1, Hu2.
      apply List.Forall_inv in Hb. revert Hb. clear Hs. unfold isspace.
      cp_cases; cbn; try done; lia.
    + destruct (c =? 304) eqn:E1; [by apply List.Forall_inv in Hb|].
      destruct (c =? 8490) eqn:E2; [by apply List.Forall_inv in Hb|].
      apply List.Forall_inv in Hb. congruence.
  - intros H. rewrite (lower_cp_space c H). by repeat constructor.
Qed.

Lemma lower_blank_iff (s : pystr) : blank (lower s) <-> blank s.
Proof.
  induction s as [|c s IH]; [done|].
  change (lower (c :: s)) with (lower_cp c ++ lower s).
  rewrite Forall_app, Forall_cons, IH, lower_cp_blank. done.
Qed.

(** The reply depends on the archetype and on the message through their
    [lower] texts only. *)
Lemma reply_through_lower (a1 a2 m1 m2 : pystr) :
  lower a1 = lower a2 -> lower m1 = lower m2 ->
  generate_guru_reply a1 m1 = generate_guru_reply a2 m2.
Proof.
  intros Ha Hm. unfold generate_guru_reply. rewrite Ha. do 3 f_equal.
  assert (Hb : blank m1 <-> blank m2)
    by by rewrite <- (lower_blank_iff m1), Hm, lower_blank_iff.
  destruct (decide (strip m1 = [])) as [H1 | H1].
  - assert (H2 : strip m2 = []) by by apply strip_nil_iff, Hb, strip_nil_iff.
    by rewrite H1, H2.
  - assert (H2 : strip m2 <> []).
    { intros H2. apply H1, strip_nil_iff, Hb, strip_nil_iff, H2. }
    by rewrite (core_chain m1 H1), (core_chain m2 H2), Hm.
Qed.

Lemma same_letter_lower (c d : N) : same_letter c d -> lower_cp c = lower_cp d.
Proof.
  assert (Hup : forall u, 65 <= u <= 90 -> lower_cp u = lower_cp (u + 32)).
  { intros u Hu. unfold lower_cp. cp_cases; cbn; try done; lia. }
  intros [-> | [[Hc ->] | [Hd ->]]]; [done | by apply Hup |].
  symmetry. by apply Hup.
Qed.

Lemma same_letters_lower (s t : pystr) :
  Forall2 same_letter s t -> lower s = lower t.
Proof.
  induction 1 as [|c d s t Hcd _ IH]; [done|].
  change (lower_cp c ++ lower s = lower_cp d ++ lower t).
  by rewrite (same_letter_lower c d Hcd), IH.
Qed.

(** X2: changing the case of ASCII letters, in the archetype or in the
    message, does not change the reply. *)
Theorem reply_ignores_ascii_case (a1 a2 m1 m2 : pystr) :
  Forall2 same_letter a1 a2 -> Forall2 same_letter m1 m2 ->
  generate_guru_reply a1 m1 = generate_guru_reply a2 m2.
Proof.
  intros Ha Hm.
  apply reply_through_lower; by apply same_letters_lower.
Qed.

Lemma reply_ignores_ascii_case_witness :
  generate_guru_reply (str "SuFi") ([201] ++ str " Heart BREAK") =
    generate_guru_reply (str "sufi") ([201] ++ str " heart break").
Proof.
  apply (reply_ignores_ascii_case (str "SuFi") (str "sufi")
           ([201] ++ str " Heart BREAK") ([201] ++ str " heart break"));
    apply (bool_decide_unpack _); vm_compute; exact I.
Defined.

Lemma any_in_app (ws : list pystr) (p s q : pystr) :
  any_in ws s = true -> any_in ws (p ++ s ++ q) = true.
Proof.
  unfold any_in. rewrite !existsb_exists. intros (w & Hw & Hc).
  exists w. split; [done|]. apply contains_spec in Hc as (p' & q' & ->).
  apply contains_spec. exists (p ++ p'), (q' ++ q). by rewrite <- !app_assoc.
Qed.

(** X3: a message in which a stress word occurs keeps the grounding-breath
    reply whatever text is put before and after it. *)
Theorem stress_survives_context (archetype p message q : pystr) :
  any_in stress_words (lower message) = true ->
  generate_guru_reply archetype (p ++ message ++ q) =
    dict_get preface (lower archetype) (str "Guidance:") ++ str " "
    ++ stress_core ++ dict_get tailoring (lower archetype) (str "").
Proof.
  intros H.
  assert (Hin : any_in stress_words (lower (p ++ message ++ q)) = true).
  { rewrite !lower_app. by apply any_in_app. }
  pose proof words_solid as Hs. apply Forall_app in Hs as [Hs _].
  pose proof (word_found_not_blank _ _ Hs Hin) as Hne.
  unfold generate_guru_reply. by rewrite (core_chain _ Hne), Hin.
Qed.

Lemma stress_survives_context_witness :
  generate_guru_reply (str "yogi")
    (str "I love my job but " ++ str "I am overwhelmed" ++ str " by its purpose") =
    str "Yogic Guidance:" ++ str " " ++ stress_core
    ++ str " Align breath and intention; the posture of your day shapes the posture of your mind.".
Proof.
  apply (stress_survives_context (str "yogi") (str "I love my job but ")
           (str "I am overwhelmed") (str " by its purpose")).
  reflexivity.
Defined.

(** X4: the two tables have the same keys: the opening label is the generic
    one exactly when the tailoring suffix is empty, which is when the
    lower-cased archetype is none of the five known ones. *)
Theorem label_and_suffix_agree (archetype : pystr) :
  (dict_get preface (lower archetype) (str "Guidance:") = str "Guidance:"
   <-> lower archetype ∉ known_archetypes) /\
  (dict_get tailoring (lower archetype) (str "") = str ""
   <-> lower archetype ∉ known_archetypes).
Proof.
  destruct (decide (lower archetype ∈ known_archetypes)) as [Hk | Hk].
  - destruct (known_lookup _ Hk) as (o & t & Hp & Ht & Ho & Hn).
    unfold dict_get. rewrite Hp, Ht. cbn [default]. by split; split.
  - destruct (unknown_lookup _ Hk) as [Hp Ht].
    unfold dict_get. rewrite Hp, Ht. by split; split.
Qed.

Lemma label_and_suffix_agree_witness :
  dict_get preface (lower (str "Oracle")) (str "Guidance:") = str "Guidance:"
  /\ dict_get tailoring (lower (str "Oracle")) (str "") = str "".
Proof.
  destruct (label_and_suffix_agree (str "Oracle")) as [[_ Hp] [_ Ht]].
  assert (Hk : lower (str "Oracle") ∉ known_archetypes).
  { intros Hin.
    repeat (apply elem_of_cons in Hin as [Hin | Hin]; [discriminate |]).
    by apply elem_of_nil in Hin. }
  split; [exact (Hp Hk) | exact (Ht Hk)].
Defined.

(** X5: every reply is an opening label, one space, one of the six core
    texts, and the suffix that goes with the label. *)
Theorem reply_shape (archetype message : pystr) :
  exists opening tail c,
    (opening, tail) ∈ styles /\ c ∈ cores /\
    generate_guru_reply archetype message = opening ++ str " " ++ c ++ tail.
Proof.
  unfold generate_guru_reply.
  exists (dict_get preface (lower archetype) (str "Guidance:")),
    (dict_get tailoring (lower archetype) (str "")), (core (strip message)).
  split; [|split; [|done]].
  - unfold styles. destruct (decide (lower archetype ∈ known_archetypes))
      as [Hk | Hk].
    + right. apply list_elem_of_fmap. by exists (lower archetype).
    + destruct (unknown_lookup _ Hk) as [Hp Ht].
      unfold dict_get. rewrite Hp, Ht. by left.
  - unfold core, cores.
    destruct (strip message); [set_solver|].
    repeat case_match; set_solver.
Qed.

(** ** Listing the personas *)

Lemma normalize_hides_id (d : doc) : normalize d !! str "_id" = None.
Proof.
  unfold normalize. destruct (d !! str "_id").
  - by rewrite lookup_insert_ne, lookup_delete_eq.
  - by rewrite lookup_delete_eq.
Qed.

(** X6: whatever the store answers, no document [list_gurus] returns has a
    field [_id]. *)
Theorem list_gurus_hides_storage_id {S} (b : backend S) (s : S) :
  Forall (fun d : doc => d !! str "_id" = None) (answer (run b list_gurus s)).
Proof.
  assert (Hd : Forall (fun d : doc => d !! str "_id" = None) defaults)
    by by repeat constructor.
  assert (Hn : forall docs : list doc,
             Forall (fun d : doc => d !! str "_id" = None) (normalize <$> docs)).
  { intros docs. apply Forall_fmap, Forall_forall. intros d _.
    apply normalize_hides_id. }
  rewrite list_gurus_run.
  destruct (on_get b (str "guru") None s) as [[[|d docs]|] s1].
  - destruct (run b (seed defaults) s1) as [[[] s2] log].
    destruct (on_get b (str "guru") None s2) as [[docs|] s3];
      [apply Hn | exact Hd].
  - apply Hn.
  - exact Hd.
Qed.

(** X7: what the normalising loop does to one document: [_id] goes, [id]
    becomes the text of [_id] when there was one and is kept otherwise, and
    every other field is kept. *)
Theorem normalize_fields (d : doc) :
  normalize d !! str "_id" = None /\
  normalize d !! str "id" =
    match d !! str "_id" with
    | Some v => Some (VStr (py_str v))
    | None => d !! str "id"
    end /\
  forall k, k <> str "_id" -> k <> str "id" -> normalize d !! k = d !! k.
Proof.
  split; [apply normalize_hides_id|]. unfold normalize.
  destruct (d !! str "_id"); split.
  - by rewrite lookup_insert_eq.
  - intros k H1 H2. by rewrite lookup_insert_ne, lookup_delete_ne.
  - by rewrite lookup_delete_ne.
  - intros k H1 H2. by rewrite lookup_delete_ne.
Qed.

Lemma normalize_fields_witness :
  let d : doc :=
    list_to_map [ (str "_id", VStr (str "7")); (str "id", VStr (str "old"));
                  (str "name", VStr (str "Zen Teacher")) ] in
  normalize d !! str "id" = Some (VStr (str "7")) /\
  normalize d !! str "name" = Some (VStr (str "Zen Teacher")).
Proof.
  intros d. destruct (normalize_fields d) as (_ & Hid & Hk). split.
  - rewrite Hid. vm_compute. reflexivity.
  - rewrite (Hk (str "name")); [vm_compute; reflexivity | discriminate ..].
Defined.

(** X8: when the query returns personas, [list_gurus] makes this one call,
    writes nothing, and returns the documents it got, normalised, in the
    same order. *)
Theorem list_gurus_without_seeding {S} (b : backend S) (s : S)
    (d : doc) (docs : list doc) :
  let q := on_get b (str "guru") None s in
  q.1 = Ok (d :: docs) ->
  run b list_gurus s =
    (normalize <$> (d :: docs), q.2,
     [EGet (str "guru") None (Ok (d :: docs))]).
Proof.
  intros q Hq. rewrite list_gurus_run. fold q. destruct q as [r s1].
  cbn [fst snd] in *. by subst r.
Qed.

Lemma list_gurus_without_seeding_witness :
  let d : doc := {[ str "_id" := VNone; str "archetype" := VStr (str "zen") ]} in
  answer (run (scripted [d]) list_gurus tt) =
    [ {[ str "id" := VStr (str "None"); str "archetype" := VStr (str "zen") ]} ].
Proof.
  intros d.
  rewrite (list_gurus_without_seeding (scripted [d]) tt d [] eq_refl).
  vm_compute. reflexivity.
Defined.

Lemma seed_writes {S} (b : backend S) (gs : list doc) (s : S) :
  Forall (fun e => exists d r, e = ECreate (str "guru") d r /\ d ∈ gs)
    (calls (run b (seed gs) s)) /\
  length (calls (run b (seed gs) s)) = length gs.
Proof.
  revert s. induction gs as [|g gs IH]; intros s; [by split|].
  cbn [seed]. io_unfold. cbn [create_document io_bind run].
  destruct (on_create b (str "guru") g s) as [r s1].
  destruct (IH s1) as [IHf IHl].
  destruct (run b (seed gs) s1) as [[[] s2] log].
  unfold calls in *. cbn [snd length] in *. split; [|by rewrite IHl].
  constructor.
  - exists g, r. split; [done | by left].
  - eapply Forall_impl; [exact IHf|]. intros e (d & r' & -> & Hd).
    exists d, r'. split; [done | by right].
Qed.

(** X9: whatever the store answers, [list_gurus] makes at most seven store
    calls, and each of its writes puts one of the five default personas
    into the collection ["guru"]. *)
Theorem list_gurus_writes_defaults_only {S} (b : backend S) (s : S) :
  let x := run b list_gurus s in
  (length (calls x) <= 7)%nat /\
  Forall (fun e =>
            is_write e = true ->
            exists d r, e = ECreate (str "guru") d r /\ d ∈ defaults)
    (calls x).
Proof.
  intros x. subst x. rewrite list_gurus_run.
  destruct (on_get b (str "guru") None s) as [[[|d docs]|] s1].
  - destruct (seed_writes b defaults s1) as [Hf Hl].
    destruct (run b (seed defaults) s1) as [[[] s2] log].
    destruct (on_get b (str "guru") None s2) as [r' s3].
    unfold calls in *. cbn [snd] in *. split.
    + cbn [length]. rewrite length_app, Hl. cbn. lia.
    + constructor; [discriminate|]. apply Forall_app. split.
      * eapply Forall_impl; [exact Hf | by intros e He _].
      * by repeat constructor.
  - unfold calls. cbn. split; [lia | by repeat constructor].
  - unfold calls. cbn. split; [lia | by repeat constructor].
Qed.

(** ** One exchange, call by call *)

Lemma store_messages_cases {S} (b : backend S) (payload : AskRequest.t)
    (conv_id : option pystr) (reply : pystr) (s : S) :
  let x := run b (store_messages payload conv_id reply) s in
  message_writes payload conv_id reply (calls x) (answer x).
Proof.
  unfold store_messages, message_writes. io_unfold.
  cbn [create_document io_bind run].
  destruct (on_create b _ _ s) as [[i1|] s1]; cbn [io_bind run].
  - destruct (on_create b _ _ s1) as [[i2|] s2]; cbn [io_bind run].
    + right. right. by exists i1, i2.
    + right. left. by exists i1.
  - by left.
Qed.

Lemma persist_cases {S} (b : backend S) (payload : AskRequest.t)
    (reply : pystr) (s : S) :
  let x := run b (persist payload reply) s in
  exchange_writes payload reply (calls x) (answer x).
Proof.
  unfold persist, exchange_writes.
  destruct (truthy (AskRequest.conversation_id payload)) eqn:Ht.
  { apply store_messages_cases. }
  io_unfold. cbn [create_document io_bind run].
  destruct (on_create b _ _ s) as [[new_id|] s1]; cbn [io_bind run].
  - right. pose proof (store_messages_cases b payload (Some new_id) reply s1)
      as Hm. cbn zeta in Hm.
    destruct (run b (store_messages payload (Some new_id) reply) s1)
      as [[a s2] log].
    unfold answer, calls in *. cbn [fst snd] in *. by exists new_id, log.
  - left. unfold answer, calls, on_exception. cbn [fst snd]. by rewrite Ht.
Qed.

(** The outcomes of [ask_guru], with the log of the [try] statement when it
    is reached. *)
Lemma ask_guru_cases {S} (b : backend S) (payload : AskRequest.t) (s : S) :
  let query := Some (guru_filter (AskRequest.guru_id payload)) in
  let q := on_get b (str "guru") query s in
  let x := run b (ask_guru payload) s in
  ((answer x = not_found \/ answer x = AttributeError) /\
   calls x = [EGet (str "guru") query q.1]) \/
  (exists archetype log response,
     let reply :=
       generate_guru_reply archetype (AskRequest.user_message payload) in
     answer x = Returns response /\
     calls x = EGet (str "guru") query q.1 :: log /\
     exchange_writes payload reply log response).
Proof.
  intros query q x. subst x. rewrite ask_guru_run. fold query q.
  destruct q as [r s1]. cbn [fst].
  destruct (lookup_guru _ r) as [guru|]; [|left; by split; [left|]].
  case_bool_decide; [left; by split; [left|]|].
  destruct (default _ _) as [|archetype]; [left; by split; [right|]|].
  right. cbn zeta.
  pose proof (persist_cases b payload
                (generate_guru_reply archetype (AskRequest.user_message payload))
                s1) as Hp. cbn zeta in Hp.
  destruct (run b (persist payload _) s1) as [[response s2] log].
  by exists archetype, log, response.
Qed.

Lemma message_writes_plan (payload : AskRequest.t) (conv_id : option pystr)
    (reply : pystr) (log : list event) (response : AskResponse.t) :
  message_writes payload conv_id reply log response ->
  call_of <$> log `prefix_of`
    [ CCreate (str "message")
        (message_doc conv_id (str "user") (AskRequest.user_message payload)
           (AskRequest.guru_id payload));
      CCreate (str "message")
        (message_doc conv_id (str "guru") reply (AskRequest.guru_id payload)) ]
  /\ (existsb failed_write log = true ->
      exists log' c d,
        log = log' ++ [ECreate c d Raise] /\ existsb failed_write log' = false).
Proof.
  intros [[-> _] | [(i1 & -> & _) | (i1 & i2 & -> & _)]].
  - split; [by exists [CCreate (str "message")
      (message_doc conv_id (str "guru") reply (AskRequest.guru_id payload))]|].
    intros _. by exists [], (str "message"), (message_doc conv_id (str "user")
      (AskRequest.user_message payload) (AskRequest.guru_id payload)).
  - split; [by exists []|]. intros _.
    by exists [ECreate (str "message") (message_doc conv_id (str "user")
      (AskRequest.user_message payload) (AskRequest.guru_id payload)) (Ok i1)],
      (str "message"), (message_doc conv_id (str "guru") reply
      (AskRequest.guru_id payload)).
  - split; [by exists [] | discriminate].
Qed.

(** X10: whatever the store answers, the calls of [ask_guru] are the first
    calls of one fixed sequence: the query for the persona, the conversation
    write when the request has no identifier, the user message write, the
    guru message write.  So it makes four calls at most, and never writes
    to another collection. *)
Theorem ask_guru_protocol {S} (b : backend S) (s : S)
    (payload : AskRequest.t) :
  let x := run b (ask_guru payload) s in
  (length (calls x) <= 4)%nat /\
  exists conv_id reply,
    call_of <$> calls x `prefix_of` plan payload conv_id reply.
Proof.
  intros x. subst x.
  destruct (ask_guru_cases b payload s)
    as [[_ ->] | (archetype & log & response & _ & -> & Hw)].
  { split; [cbn; lia|]. exists None, []. by eexists. }
  cbn zeta in Hw. unfold exchange_writes, plan in *.
  destruct (truthy (AskRequest.conversation_id payload)).
  - destruct (message_writes_plan _ _ _ _ _ Hw) as [[k Hk] _].
    split.
    + apply (f_equal length) in Hk. rewrite length_app, length_fmap in Hk.
      cbn in *. lia.
    + eexists _, _. exists k. cbn [fmap list_fmap call_of app]. by rewrite <- Hk.
  - destruct Hw as [[-> _] | (new_id & log' & -> & Hw)].
    + split; [cbn; lia|]. exists None, []. by eexists.
    + destruct (message_writes_plan _ _ _ _ _ Hw) as [[k Hk] _].
      split.
      * apply (f_equal length) in Hk. rewrite length_app, length_fmap in Hk.
        cbn in *. lia.
      * eexists _, _. exists k. cbn [fmap list_fmap call_of app].
        by rewrite <- Hk.
Qed.

(** X11: a write that raises is the last call of [ask_guru]: after a failed
    conversation write no message is written, and after a failed user
    message write no guru message is written. *)
Theorem ask_guru_stops_at_failure {S} (b : backend S) (s : S)
    (payload : AskRequest.t) :
  let x := run b (ask_guru payload) s in
  existsb failed_write (calls x) = true ->
  exists log c d,
    calls x = log ++ [ECreate c d Raise] /\ existsb failed_write log = false.
Proof.
  intros x. subst x.
  destruct (ask_guru_cases b payload s)
    as [[_ ->] | (archetype & log & response & _ & -> & Hw)];
    [discriminate|].
  cbn zeta in Hw. unfold exchange_writes in Hw.
  cbn [existsb failed_write orb]. intros Hf.
  destruct (truthy (AskRequest.conversation_id payload)).
  - destruct (message_writes_plan _ _ _ _ _ Hw) as [_ H].
    destruct (H Hf) as (log' & c & d & -> & Hn).
    by eexists (_ :: log'), c, d.
  - destruct Hw as [[-> _] | (new_id & log' & -> & Hw)].
    + by eexists [_], _, _.
    + destruct (message_writes_plan _ _ _ _ _ Hw) as [_ H].
      destruct (H Hf) as (log'' & c & d & -> & Hn).
      by eexists (_ :: _ :: log''), c, d.
Qed.

Lemma ask_guru_stops_at_failure_witness :
  exists log c d,
    calls (run unavailable (ask_guru zen_request) tt) =
      log ++ [ECreate c d Raise] /\ existsb failed_write log = false.
Proof.
  apply (ask_guru_stops_at_failure unavailable tt zen_request). reflexivity.
Defined.



(** X13: an empty string as conversation identifier is taken as no
    identifier: the request runs as the one without identifier does. *)
Theorem empty_conversation_id_is_none {S} (b : backend S) (s : S)
    (guru_id user_message : pystr) (user_name : option pystr) :
  run b (ask_guru (AskRequest.Build (Some []) guru_id user_message user_name)) s
  = run b (ask_guru (AskRequest.Build None guru_id user_message user_name)) s.
Proof.
  rewrite !ask_guru_run. cbn [AskRequest.guru_id AskRequest.user_message].
  destruct (on_get b _ _ s) as [r s1].
  destruct (lookup_guru guru_id r) as [guru|]; [|done].
  case_bool_decide; [done|]. destruct (default _ _) as [|archetype]; [done|].
  reflexivity.
Qed.

(** X14: a stored persona whose [archetype] is [None] makes [ask_guru] end
    with the [AttributeError] of [archetype.lower()], before any write. *)
Theorem null_archetype_fails {S} (b : backend S) (s : S)
    (payload : AskRequest.t) (g : doc) (docs : list doc) :
  let query := Some (guru_filter (AskRequest.guru_id payload)) in
  let q := on_get b (str "guru") query s in
  q.1 = Ok (g :: docs) ->
  g !! str "archetype" = Some VNone ->
  run b (ask_guru payload) s =
    (AttributeError, q.2, [EGet (str "guru") query q.1]).
Proof.
  intros query q Hq Ha. rewrite ask_guru_run. fold query q.
  destruct q as [r s1]. cbn [fst snd] in *. subst r. cbn [lookup_guru].
  rewrite bool_decide_eq_false_2, Ha; [done|].
  intros ->. by rewrite lookup_empty in Ha.
Qed.

Lemma null_archetype_fails_witness :
  answer (run (scripted [null_guru]) (ask_guru zen_request) tt)
  = AttributeError.
Proof.
  assert (Ha : null_guru !! str "archetype" = Some VNone)
    by (vm_compute; reflexivity).
  by rewrite (null_archetype_fails (scripted [null_guru]) tt zen_request
                null_guru [] eq_refl Ha).
Defined.

(** ** The database probe *)

(** X15: [test_database] reports at most ten collections, the first ones of
    the list the database gave; it reports some only when the listing went
    through, and then says so. *)
Theorem collections_capped (imported : attempt (option database_handle))
    (DATABASE_URL : option pystr) :
  let r := test_database imported DATABASE_URL in
  (length (Status.collections r) <= 10)%nat /\
  (Status.collections r <> [] ->
   exists db names,
     imported = Done (Some db) /\ list_collection_names db = Done names /\
     Status.collections r = take 10 names /\
     Status.database r = [9989] ++ str " Connected & Working").
Proof.
  unfold test_database.
  destruct imported as [[db|]|e]; cbn [Status.collections length];
    try (split; [lia | done]).
  destruct (list_collection_names db) as [names|e] eqn:Hn;
    cbn [Status.collections Status.database length];
    [|split; [lia | done]].
  split; [rewrite length_take; lia|]. intros _. by exists db, names.
Qed.

Lemma collections_capped_witness :
  let names := (fun n => [N.of_nat n + 97]) <$> seq 0 12 in
  Status.collections
    (test_database (Done (Some (Handle None (Done names)))) None)
  = take 10 names.
Proof.
  intros names.
  destruct (collections_capped (Done (Some (Handle None (Done names)))) None)
    as [_ H].
  destruct H as (db & names' & Hi & Hl & Hc & _); [discriminate|].
  injection Hi as <-. cbn in Hl. injection Hl as <-. exact Hc.
Defined.

(** X16: the text under [database] has at most 75 code points, whatever the
    text of the exception; [database_url] and [database_name] are [None]
    exactly when the status is ["Not Connected"], which is when no database
    object was imported. *)
Theorem probe_consistent (imported : attempt (option database_handle))
    (DATABASE_URL : option pystr) :
  let r := test_database imported DATABASE_URL in
  (length (Status.database r) <= 75)%nat /\
  (Status.connection_status r = str "Connected" \/
   Status.connection_status r = str "Not Connected") /\
  (Status.connection_status r = str "Connected" <->
   exists db, imported = Done (Some db)) /\
  (Status.database_url r = None <->
   Status.connection_status r = str "Not Connected") /\
  (Status.database_name r = None <->
   Status.connection_status r = str "Not Connected").
Proof.
  assert (Hcut : forall e : pystr, (length (take 50 e) <= 50)%nat)
    by (intros e; rewrite length_take; lia).
  unfold test_database.
  destruct imported as [[db|]|e].
  - destruct (list_collection_names db) as [names|e];
      cbn [Status.database Status.connection_status Status.database_url
           Status.database_name];
      (split;
       [rewrite ?length_app; try (generalize (Hcut e); generalize (take 50 e);
                                  intros t Ht); cbn; lia|]);
      (split; [by left|]); (split; [split; [by exists db | done]|]);
      split; split; discriminate.
  - cbn. split; [lia|]. split; [by right|].
    split; [split; [discriminate | by intros [? ?]]|]. by split; split.
  - cbn [Status.database Status.connection_status Status.database_url
         Status.database_name].
    split; [rewrite !length_app; generalize (Hcut e); generalize (take 50 e);
            intros t Ht; cbn; lia|].
    split; [by right|].
    split; [split; [discriminate | by intros [? ?]]|]. by split; split.
Qed.

Lemma probe_consistent_witness :
  let r := test_database (Failed (replicate 60 33)) (Some (str "mongodb://h")) in
  Status.database_url r = None /\ Status.database_name r = None.
Proof.
  intros r.
  destruct (probe_consistent (Failed (replicate 60 33))
              (Some (str "mongodb://h"))) as (_ & _ & _ & [_ Hu] & [_ Hn]).
  split; [exact (Hu eq_refl) | exact (Hn eq_refl)].
Defined.
